(** * Preferential studies: preference ledger, readiness and the frontier

    A shallow embedding of [optuna_dashboard/preferential/_study.py].

    The Python code talks to a trial store ([optuna.storages.BaseStorage])
    through a handful of calls.  The store is state that every call
    threads through, and every call may raise: a computation is therefore
    a function from the store to the store it leaves behind together with
    either a value or the exception that was raised. *)

From Stdlib Require Import ZArith String List Lia.
From stdpp Require Import base option list gmap strings pretty fin_maps relations.

Local Open Scope Z_scope.

#[local] Set Warnings "-register-all".

(** ** Python values held in attribute dictionaries *)

(** The JSON-serialisable values an attribute can hold. *)
Inductive pyval : Type :=
| PyNone
| PyBool (b : bool)
| PyInt (z : Z)
| PyStr (s : string)
| PyList (l : list pyval).

(** Python truth value, as tested by [if not x]. *)
Definition truthy (v : pyval) : bool :=
  match v with
  | PyNone => false
  | PyBool b => b
  | PyInt z => negb (Z.eqb z 0)
  | PyStr s => negb (String.eqb s ""%string)
  | PyList l => match l with [] => false | _ :: _ => true end
  end.

(** [x is True]: identity with the singleton [True]. *)
Definition is_True (v : pyval) : bool :=
  match v with
  | PyBool true => true
  | _ => false
  end.

(** [isinstance(x, int)]: [bool] is a subclass of [int]. *)
Definition isinstance_int (v : pyval) : option Z :=
  match v with
  | PyInt z => Some z
  | PyBool b => Some (if b then 1 else 0)
  | _ => None
  end.

(** [d.get(k)]: the value, or [None] when the key is absent. *)
Definition dict_get (d : gmap string pyval) (k : string) : pyval :=
  default PyNone (d !! k).

(** ** Exceptions and outcomes *)

Inductive exn : Type :=
| RuntimeError (msg : string)
| ValueError (msg : string)
| KeyError
| IndexError
| DuplicatedStudyError
| AssertionError.

Inductive outcome (A : Type) : Type :=
| Return (a : A)
| Raise (e : exn).
Arguments Return {A} a.
Arguments Raise {A} e.

Definition obind {A B} (o : outcome A) (k : A → outcome B) : outcome B :=
  match o with
  | Return a => k a
  | Raise e => Raise e
  end.

(** ** Trials and studies *)

Inductive TrialState : Type := RUNNING | COMPLETE | PRUNED | FAIL | WAITING.

#[global] Instance TrialState_eq_dec : EqDecision TrialState.
Proof. solve_decision. Defined.

(** [TrialState.is_finished]: neither running nor waiting. *)
Definition is_finished (s : TrialState) : bool :=
  match s with
  | RUNNING | WAITING => false
  | COMPLETE | PRUNED | FAIL => true
  end.

Record FrozenTrial : Type := mkFrozenTrial {
  number : Z;
  state : TrialState;
  system_attrs : gmap string pyval;
  user_attrs : gmap string pyval;
  trial_id : Z
}.

(** [copy.deepcopy] of a trial snapshot: a structurally equal new value. *)
Definition deepcopy (t : FrozenTrial) : FrozenTrial :=
  {| number := number t;
     state := state t;
     system_attrs := system_attrs t;
     user_attrs := user_attrs t;
     trial_id := trial_id t |}.

(** A live trial handle, [optuna.Trial]. *)
Record Trial : Type := mkTrial { _trial_id : Z }.

(** [optuna.Study]: the store is passed separately. *)
Record Study : Type := mkStudy { _study_id : Z }.

(** What the store keeps for one study.  [preferences] is the Ledger. *)
Record StudyInfo : Type := mkStudyInfo {
  study_name : string;
  study_system_attrs : gmap string pyval;
  study_user_attrs : gmap string pyval;
  trials : list FrozenTrial;
  preferences : list (Z * Z)
}.

Record Storage : Type := mkStorage {
  studies : gmap Z StudyInfo;
  study_name_to_id : gmap string Z;
  max_trial_id : Z
}.

Definition empty_storage : Storage :=
  {| studies := ∅; study_name_to_id := ∅; max_trial_id := -1 |}.

(** Computations that may change the store and may raise. *)
Definition M (A : Type) : Type := Storage → Storage * outcome A.

Definition ret {A} (a : A) : M A := λ st, (st, Return a).
Definition raise {A} (e : exn) : M A := λ st, (st, Raise e).
Definition bind {A B} (m : M A) (k : A → M B) : M B :=
  λ st, match m st with
        | (st', Return a) => k a st'
        | (st', Raise e) => (st', Raise e)
        end.
(** A read-only query run as a computation. *)
Definition query {A} (q : Storage → outcome A) : M A := λ st, (st, q st).

Notation "'let!' x ':=' m 'in' k" := (bind m (λ x, k))
  (at level 10, x name, m at level 100, k at level 200).
Notation "'let?' x ':=' o 'in' k" := (obind o (λ x, k))
  (at level 10, x name, o at level 100, k at level 200).

(** [l[i]] on a Python list: a negative index counts from the end. *)
Definition py_index {A} (l : list A) (i : Z) : outcome A :=
  let n := Z.of_nat (length l) in
  let j := if decide (i < 0) then i + n else i in
  if decide (0 ≤ j < n) then
    match l !! Z.to_nat j with
    | Some x => Return x
    | None => Raise IndexError
    end
  else Raise IndexError.

(** ** The trial store

    The store is optuna's, not this package's.  Its operations are
    modelled as far as the code below calls them: a missing study or
    trial raises [KeyError], a taken study name raises
    [DuplicatedStudyError], an update of a trial that has finished raises
    [RuntimeError], and a trial number is looked up by position as the
    in-memory store does.  Whatever else a concrete store may refuse
    would reach the caller the same way, as an exception that nothing
    below catches. *)

Definition with_studies (f : gmap Z StudyInfo → gmap Z StudyInfo) (st : Storage)
    : Storage :=
  {| studies := f (studies st);
     study_name_to_id := study_name_to_id st;
     max_trial_id := max_trial_id st |}.

Definition with_study_system_attrs (f : gmap string pyval → gmap string pyval)
    (si : StudyInfo) : StudyInfo :=
  {| study_name := study_name si;
     study_system_attrs := f (study_system_attrs si);
     study_user_attrs := study_user_attrs si;
     trials := trials si;
     preferences := preferences si |}.

Definition with_study_user_attrs (f : gmap string pyval → gmap string pyval)
    (si : StudyInfo) : StudyInfo :=
  {| study_name := study_name si;
     study_system_attrs := study_system_attrs si;
     study_user_attrs := f (study_user_attrs si);
     trials := trials si;
     preferences := preferences si |}.

Definition with_trials (f : list FrozenTrial → list FrozenTrial)
    (si : StudyInfo) : StudyInfo :=
  {| study_name := study_name si;
     study_system_attrs := study_system_attrs si;
     study_user_attrs := study_user_attrs si;
     trials := f (trials si);
     preferences := preferences si |}.

Definition with_preferences (f : list (Z * Z) → list (Z * Z))
    (si : StudyInfo) : StudyInfo :=
  {| study_name := study_name si;
     study_system_attrs := study_system_attrs si;
     study_user_attrs := study_user_attrs si;
     trials := trials si;
     preferences := f (preferences si) |}.

Definition with_system_attrs (f : gmap string pyval → gmap string pyval)
    (t : FrozenTrial) : FrozenTrial :=
  {| number := number t;
     state := state t;
     system_attrs := f (system_attrs t);
     user_attrs := user_attrs t;
     trial_id := trial_id t |}.

Definition with_state (s : TrialState) (t : FrozenTrial) : FrozenTrial :=
  {| number := number t;
     state := s;
     system_attrs := system_attrs t;
     user_attrs := user_attrs t;
     trial_id := trial_id t |}.

Module BaseStorage.

(** Some trial of some study carries this id. *)
Definition has_trial (tid : Z) (st : Storage) : Prop :=
  map_Exists (λ _ si, Exists (λ t, trial_id t = tid) (trials si)) (studies st).

#[global] Instance has_trial_dec tid st : Decision (has_trial tid st).
Proof. unfold has_trial. apply _. Defined.

(** Some trial with this id has finished. *)
Definition has_finished_trial (tid : Z) (st : Storage) : Prop :=
  map_Exists
    (λ _ si, Exists (λ t, trial_id t = tid ∧ is_finished (state t)) (trials si))
    (studies st).

#[global] Instance has_finished_trial_dec tid st :
  Decision (has_finished_trial tid st).
Proof. unfold has_finished_trial. apply _. Defined.

(** The number of the trial with this id. *)
Definition trial_number_of (tid : Z) (st : Storage) : Z :=
  default 0
    ((λ p, number p.2) <$>
       list_find (λ t, trial_id t = tid)
         (concat ((λ p, trials p.2) <$> map_to_list (studies st)))).

(** The message of [check_trial_is_updatable]. *)
Definition finished_message (tid : Z) (st : Storage) : string :=
  "Trial#" +:+ pretty (trial_number_of tid st)
    +:+ " has already finished and can not be updated.".

Definition create_new_study (study_name : option string) (generated : string)
    : M Z :=
  λ st,
    let study_id := fresh (dom (studies st)) in
    let add name :=
      ({| studies :=
            <[study_id := {| study_name := name;
                             study_system_attrs := ∅;
                             study_user_attrs := ∅;
                             trials := [];
                             preferences := [] |}]> (studies st);
          study_name_to_id := <[name := study_id]> (study_name_to_id st);
          max_trial_id := max_trial_id st |},
       Return study_id) in
    match study_name with
    | Some name =>
        match study_name_to_id st !! name with
        | Some _ => (st, Raise DuplicatedStudyError)
        | None => add name
        end
    | None => add generated
    end.

Definition get_study_id_from_name (study_name : string) (st : Storage)
    : outcome Z :=
  match study_name_to_id st !! study_name with
  | Some study_id => Return study_id
  | None => Raise KeyError
  end.

Definition get_all_study_names (st : Storage) : list string :=
  (λ p, study_name p.2) <$> map_to_list (studies st).

Definition get_study_system_attrs (study_id : Z) (st : Storage)
    : outcome (gmap string pyval) :=
  match studies st !! study_id with
  | Some si => Return (study_system_attrs si)
  | None => Raise KeyError
  end.

Definition set_study_system_attr (study_id : Z) (key : string) (value : pyval)
    : M unit :=
  λ st,
    match studies st !! study_id with
    | Some si =>
        (with_studies
           (insert study_id (with_study_system_attrs (insert key value) si)) st,
         Return tt)
    | None => (st, Raise KeyError)
    end.

Definition set_study_user_attr (study_id : Z) (key : string) (value : pyval)
    : M unit :=
  λ st,
    match studies st !! study_id with
    | Some si =>
        (with_studies
           (insert study_id (with_study_user_attrs (insert key value) si)) st,
         Return tt)
    | None => (st, Raise KeyError)
    end.

(** Trials of the study in ascending number order, optionally only
    those in one of [states]. *)
Definition get_all_trials (study_id : Z) (deepcopy_flag : bool)
    (states : option (list TrialState)) (st : Storage)
    : outcome (list FrozenTrial) :=
  match studies st !! study_id with
  | Some si =>
      let ts := match states with
                | Some ss => filter (λ t, state t ∈ ss) (trials si)
                | None => trials si
                end in
      Return (if deepcopy_flag then deepcopy <$> ts else ts)
  | None => Raise KeyError
  end.

(** As in the in-memory store: the trial at position [trial_number] of
    the study's list, which is asserted to carry that number. *)
Definition get_trial_id_from_study_id_trial_number (study_id : Z)
    (trial_number : Z) (st : Storage) : outcome Z :=
  match studies st !! study_id with
  | Some si =>
      if decide (Z.of_nat (length (trials si)) ≤ trial_number) then Raise KeyError
      else
        let? trial := py_index (trials si) trial_number in
        if decide (number trial = trial_number) then Return (trial_id trial)
        else Raise AssertionError
  | None => Raise KeyError
  end.

Definition set_attr_of (tid : Z) (key : string) (value : pyval)
    (t : FrozenTrial) : FrozenTrial :=
  if decide (trial_id t = tid) then with_system_attrs (insert key value) t
  else t.

(** A trial the store does not hold is a [KeyError]; a trial that has
    finished is not updated ([check_trial_is_updatable]). *)
Definition set_trial_system_attr (tid : Z) (key : string) (value : pyval)
    : M unit :=
  λ st,
    if decide (has_trial tid st) then
      if decide (has_finished_trial tid st) then
        (st, Raise (RuntimeError (finished_message tid st)))
      else
        (with_studies (fmap (with_trials (fmap (set_attr_of tid key value)))) st,
         Return tt)
    else (st, Raise KeyError).

(** [set_trial_state_values(trial_id, state=RUNNING)] on a waiting trial. *)
Definition start_trial (tid : Z) (t : FrozenTrial) : FrozenTrial :=
  if decide (trial_id t = tid ∧ state t = WAITING) then with_state RUNNING t
  else t.

(** A new trial gets the next number of its study and the next id of
    the store; with a template, everything else is copied from it. *)
Definition create_new_trial (study_id : Z) (template_trial : option FrozenTrial)
    : M Z :=
  λ st,
    match studies st !! study_id with
    | Some si =>
        let tid := max_trial_id st + 1 in
        let n := Z.of_nat (length (trials si)) in
        let t :=
          match template_trial with
          | Some tpl =>
              {| number := n; state := state tpl;
                 system_attrs := system_attrs tpl;
                 user_attrs := user_attrs tpl; trial_id := tid |}
          | None =>
              {| number := n; state := RUNNING; system_attrs := ∅;
                 user_attrs := ∅; trial_id := tid |}
          end in
        ({| studies := <[study_id := with_trials (λ ts, ts ++ [t]) si]> (studies st);
            study_name_to_id := study_name_to_id st;
            max_trial_id := tid |},
         Return tid)
    | None => (st, Raise KeyError)
    end.

End BaseStorage.

(** ** The preference Ledger ([_system_attrs]) *)

Module _system_attrs.

(** Modelled from the spec: [report_preferences] of
    [optuna_dashboard/preferential/_system_attrs.py] is missing.  Ledger
    [append(study, statements)]: appends all given pairs, with no
    validation that the referenced trial numbers exist; a missing study
    is the store's error. *)
Definition report_preferences (study_id : Z) (preferences_ : list (Z * Z))
    : M unit :=
  λ st,
    match studies st !! study_id with
    | Some si =>
        (with_studies
           (insert study_id (with_preferences (λ l, l ++ preferences_) si)) st,
         Return tt)
    | None => (st, Raise KeyError)
    end.

(** Modelled from the spec: [get_preferences] of
    [optuna_dashboard/preferential/_system_attrs.py] is missing.  Ledger
    [read_all(study)]: every statement ever appended for the study, in
    insertion order, with no filtering and no aggregation. *)
Definition get_preferences (study_id : Z) (st : Storage)
    : outcome (list (Z * Z)) :=
  match studies st !! study_id with
  | Some si => Return (preferences si)
  | None => Raise KeyError
  end.

End _system_attrs.

(** ** What the code uses of [optuna] itself

    Samplers and parameter distributions do not touch anything modelled
    here and are left out of the signatures. *)

Module optuna.

(** [storage=None] stands for a new, empty in-memory store.  The default
    [load_if_exists=False] makes a taken name an error.  [generated] is
    the unique name the store draws when none is given. *)
Definition create_study (study_name : option string) (generated : string)
    : M Study :=
  let! study_id := BaseStorage.create_new_study study_name generated in
  ret (mkStudy study_id).

(** With [study_name=None] the store must hold a single study.  The
    message of the [ValueError] is abridged: optuna's also names the
    storage object. *)
Definition load_study (study_name : option string) : M Study :=
  let! name :=
    match study_name with
    | Some name => ret name
    | None =>
        λ st, match BaseStorage.get_all_study_names st with
              | [name] => (st, Return name)
              | _ => (st, Raise (ValueError "Could not determine the study name."))
              end
    end in
  let! study_id := query (BaseStorage.get_study_id_from_name name) in
  ret (mkStudy study_id).

Definition get_trials (self : Study) (deepcopy_flag : bool)
    (states : option (list TrialState)) : M (list FrozenTrial) :=
  query (BaseStorage.get_all_trials (_study_id self) deepcopy_flag states).

(** The first waiting trial of the study, if there is one, is set running
    and its id returned. *)
Definition _pop_waiting_trial_id (self : Study) : M (option Z) :=
  λ st,
    match studies st !! _study_id self with
    | Some si =>
        match list_find (λ t, state t = WAITING) (trials si) with
        | Some (_, t) =>
            (with_studies
               (fmap (with_trials (fmap (BaseStorage.start_trial (trial_id t))))) st,
             Return (Some (trial_id t)))
        | None => (st, Return None)
        end
    | None => (st, Raise KeyError)
    end.

Definition ask (self : Study) : M Trial :=
  let! waiting := _pop_waiting_trial_id self in
  match waiting with
  | Some tid => ret (mkTrial tid)
  | None =>
      let! tid := BaseStorage.create_new_trial (_study_id self) None in
      ret (mkTrial tid)
  end.

Definition add_trial (self : Study) (trial : FrozenTrial) : M unit :=
  let! _ := BaseStorage.create_new_trial (_study_id self) (Some trial) in
  ret tt.

Fixpoint add_trials (self : Study) (trials_ : list FrozenTrial) : M unit :=
  match trials_ with
  | [] => ret tt
  | trial :: rest => let! _ := add_trial self trial in add_trials self rest
  end.

Definition set_user_attr (self : Study) (key : string) (value : pyval)
    : M unit :=
  BaseStorage.set_study_user_attr (_study_id self) key value.

Definition study_name (self : Study) : M string :=
  λ st, match studies st !! _study_id self with
        | Some si => (st, Return (study_name si))
        | None => (st, Raise KeyError)
        end.

Definition user_attrs (self : Study) : M (gmap string pyval) :=
  λ st, match studies st !! _study_id self with
        | Some si => (st, Return (study_user_attrs si))
        | None => (st, Raise KeyError)
        end.

End optuna.

(** ** [_study.py] *)

Definition _SYSTEM_ATTR_PREFERENTIAL_STUDY : string := "preference:is_preferential".
Definition _SYSTEM_ATTR_COMPARISON_READY : string := "preference:comparison_ready".

(** [[f x for x in l]] where [f] may raise: the first exception wins. *)
Fixpoint for_each {A B} (f : A → outcome B) (l : list A) : outcome (list B) :=
  match l with
  | [] => Return []
  | x :: rest =>
      let? y := f x in
      let? ys := for_each f rest in
      Return (y :: ys)
  end.

Definition get_best_trials (study_id : Z) (storage : Storage)
    : outcome (list FrozenTrial) :=
  let? all_trials :=
    BaseStorage.get_all_trials study_id false (Some [COMPLETE; RUNNING]) storage in
  let ready_trials :=
    filter (λ t, is_True (dict_get (system_attrs t) _SYSTEM_ATTR_COMPARISON_READY))
           all_trials in
  let? preferences_ := _system_attrs.get_preferences study_id storage in
  let worse_numbers : gset Z := list_to_set (snd <$> preferences_) in
  Return (deepcopy <$> filter (λ t, number t ∉ worse_numbers) ready_trials).

Record PreferentialStudy : Type := mkPreferentialStudy { _study : Study }.

(** An argument that is one trial or a list of trials. *)
Inductive trial_or_list : Type :=
| OneTrial (t : FrozenTrial)
| TrialList (l : list FrozenTrial).

(** What a caller may hand to [mark_comparison_ready]. *)
Inductive pyobj : Type :=
| ObjTrial (t : Trial)
| ObjValue (v : pyval).

Module PreferentialStudy.

Definition trials (self : PreferentialStudy) : M (list FrozenTrial) :=
  optuna.get_trials (_study self) true None.

Definition best_trials (self : PreferentialStudy) : M (list FrozenTrial) :=
  query (get_best_trials (_study_id (_study self))).

Definition study_name (self : PreferentialStudy) : M string :=
  optuna.study_name (_study self).

Definition user_attrs (self : PreferentialStudy) : M (gmap string pyval) :=
  optuna.user_attrs (_study self).

Definition get_trials (self : PreferentialStudy) (deepcopy_flag : bool)
    (states : option (list TrialState)) : M (list FrozenTrial) :=
  optuna.get_trials (_study self) deepcopy_flag states.

Definition ask (self : PreferentialStudy) : M Trial :=
  optuna.ask (_study self).

Definition add_trial (self : PreferentialStudy) (trial : FrozenTrial) : M unit :=
  optuna.add_trial (_study self) trial.

Definition add_trials (self : PreferentialStudy) (trials_ : list FrozenTrial)
    : M unit :=
  optuna.add_trials (_study self) trials_.

(** [isinstance(x, list)] and the wrapping of a scalar. *)
Definition as_list (x : trial_or_list) : list FrozenTrial :=
  match x with
  | OneTrial t => [t]
  | TrialList l => l
  end.

Definition report_preference (self : PreferentialStudy)
    (better_trials worse_trials : trial_or_list) : M unit :=
  let better_trials := as_list better_trials in
  let worse_trials := as_list worse_trials in
  _system_attrs.report_preferences (_study_id (_study self))
    (flat_map (λ b, map (λ w, (number b, number w)) worse_trials) better_trials).

Definition get_preferences (self : PreferentialStudy) (deepcopy_flag : bool)
    : M (list (FrozenTrial * FrozenTrial)) :=
  let! trials_ := optuna.get_trials (_study self) deepcopy_flag None in
  let! preferences_ :=
    query (_system_attrs.get_preferences (_study_id (_study self))) in
  query (λ _,
    for_each (λ p, let? b := py_index trials_ p.1 in
                   let? w := py_index trials_ p.2 in
                   Return (b, w))
             preferences_).

Definition preferences (self : PreferentialStudy)
    : M (list (FrozenTrial * FrozenTrial)) :=
  get_preferences self true.

Definition set_user_attr (self : PreferentialStudy) (key : string)
    (value : pyval) : M unit :=
  optuna.set_user_attr (_study self) key value.

Definition mark_comparison_ready (self : PreferentialStudy)
    (trial_or_number : pyobj) : M unit :=
  let! trial_id_ :=
    match trial_or_number with
    | ObjTrial t => ret (_trial_id t)
    | ObjValue v =>
        match isinstance_int v with
        | Some n =>
            query (BaseStorage.get_trial_id_from_study_id_trial_number
                     (_study_id (_study self)) n)
        | None => raise (RuntimeError "Unexpected trial type")
        end
    end in
  BaseStorage.set_trial_system_attr trial_id_ _SYSTEM_ATTR_COMPARISON_READY
    (PyBool true).

End PreferentialStudy.

Definition load_study (study_name : option string) : M PreferentialStudy :=
  let! study := optuna.load_study study_name in
  let! system_attrs_ :=
    query (BaseStorage.get_study_system_attrs (_study_id study)) in
  if negb (truthy (dict_get system_attrs_ _SYSTEM_ATTR_PREFERENTIAL_STUDY)) then
    raise (ValueError "The study is not a PreferentialStudy.")
  else ret (mkPreferentialStudy study).

(** [try: body except DuplicatedStudyError: handler]. *)
Definition try_except_duplicated {A} (body handler : M A) : M A :=
  λ st, match body st with
        | (st', Raise DuplicatedStudyError) => handler st'
        | r => r
        end.

(** [storage=None] is a new, empty in-memory store; the store returned is
    the one the study lives in. *)
Definition create_study (storage : option Storage) (study_name : option string)
    (load_if_exists : bool) (generated : string)
    : Storage * outcome PreferentialStudy :=
  try_except_duplicated
    (let! study := optuna.create_study study_name generated in
     let! _ := BaseStorage.set_study_system_attr (_study_id study)
                 _SYSTEM_ATTR_PREFERENTIAL_STUDY (PyBool true) in
     ret (mkPreferentialStudy study))
    (if load_if_exists then
       match study_name, storage with
       | None, _ => raise AssertionError
       | Some _, None => raise AssertionError
       | Some name, Some _ => load_study (Some name)
       end
     else raise DuplicatedStudyError)
    (default empty_storage storage).

(** ** Sequences of calls *)

(** The calls of the package that can change the store. *)
Inductive core_op : Type :=
| CreateStudy (study_name : option string) (load_if_exists : bool)
    (generated : string)
| LoadStudy (study_name : option string)
| Ask (self : PreferentialStudy)
| AddTrial (self : PreferentialStudy) (trial : FrozenTrial)
| AddTrials (self : PreferentialStudy) (trials_ : list FrozenTrial)
| SetUserAttr (self : PreferentialStudy) (key : string) (value : pyval)
| ReportPreference (self : PreferentialStudy)
    (better_trials worse_trials : trial_or_list)
| MarkComparisonReady (self : PreferentialStudy) (trial_or_number : pyobj).

(** The store a call leaves behind, whether it returned or raised. *)
Definition run_op (op : core_op) (st : Storage) : Storage :=
  match op with
  | CreateStudy name lie generated => (create_study (Some st) name lie generated).1
  | LoadStudy name => (load_study name st).1
  | Ask self => (PreferentialStudy.ask self st).1
  | AddTrial self t => (PreferentialStudy.add_trial self t st).1
  | AddTrials self ts => (PreferentialStudy.add_trials self ts st).1
  | SetUserAttr self k v => (PreferentialStudy.set_user_attr self k v st).1
  | ReportPreference self b w => (PreferentialStudy.report_preference self b w st).1
  | MarkComparisonReady self x => (PreferentialStudy.mark_comparison_ready self x st).1
  end.

Definition core_step (st st' : Storage) : Prop := ∃ op, st' = run_op op st.


(** ** The vocabulary of the specification *)

(** The Readiness flag of a trial snapshot is true. *)
Definition ready (t : FrozenTrial) : Prop :=
  system_attrs t !! _SYSTEM_ATTR_COMPARISON_READY = Some (PyBool true).

(** Number [n] appears as the worse element of some statement. *)
Definition lost (ledger : list (Z * Z)) (n : Z) : Prop :=
  ∃ b, (b, n) ∈ ledger.

(** "Every ready trial that has never lost a comparison", among the
    trials in state complete or running. *)
Definition frontier_member (si : StudyInfo) (t : FrozenTrial) : Prop :=
  (state t = COMPLETE ∨ state t = RUNNING) ∧ ready t ∧ ¬ lost (preferences si) (number t).


(** Each trial's number equals its position in the store's trial list. *)
Definition dense (si : StudyInfo) : Prop :=
  ∀ (i : nat) t, trials si !! i = Some t → number t = Z.of_nat i.

(** The study has a trial with this number. *)
Definition has_number (si : StudyInfo) (n : Z) : Prop :=
  ∃ t, t ∈ trials si ∧ number t = n.

(** The pair of snapshots [q] resolves the statement [p]. *)
Definition resolves (si : StudyInfo) (p : Z * Z) (q : FrozenTrial * FrozenTrial)
    : Prop :=
  q.1 ∈ trials si ∧ q.2 ∈ trials si ∧ number q.1 = p.1 ∧ number q.2 = p.2.

(** The trial with this id is marked ready in the store. *)
Definition comparison_ready (st : Storage) (tid : Z) : Prop :=
  ∃ sid si t, studies st !! sid = Some si ∧ t ∈ trials si ∧
              trial_id t = tid ∧ ready t.

(** The study carries a truthy preferential marker. *)
Definition preferential (st : Storage) (study_id : Z) : Prop :=
  ∃ si, studies st !! study_id = Some si ∧
        truthy (dict_get (study_system_attrs si) _SYSTEM_ATTR_PREFERENTIAL_STUDY) = true.

#[global] Instance ready_dec t : Decision (ready t).
Proof.
  unfold ready.
  destruct (system_attrs t !! _SYSTEM_ATTR_COMPARISON_READY) as [[|[]| | |]|];
    first [ left; reflexivity | right; congruence ].
Defined.

#[global] Instance lost_dec ledger n : Decision (lost ledger n).
Proof.
  refine (cast_if (decide (Exists (λ p, p.2 = n) ledger))); unfold lost.
  - abstract (apply Exists_exists in e as [[b w] [Hin Hw]]; simpl in Hw; subst; eauto).
  - abstract (intros [b Hb]; apply n0, Exists_exists; exists (b, n); auto).
Defined.

#[global] Instance frontier_member_dec si t : Decision (frontier_member si t).
Proof. unfold frontier_member. apply _. Defined.

#[global] Instance has_number_dec si n : Decision (has_number si n).
Proof.
  refine (cast_if (decide (Exists (λ t, number t = n) (trials si))));
    unfold has_number.
  - abstract (apply Exists_exists in e as (t & Hin & Hn); eauto).
  - abstract (intros (t & Hin & Hn); apply n0, Exists_exists; eauto).
Defined.


(** A statement whose two numbers are positions of the trial list is
    resolved to the trials at these positions. *)
Definition at_positions (si : StudyInfo) (p : Z * Z)
    (q : FrozenTrial * FrozenTrial) : Prop :=
  ∃ i j : nat, p = (Z.of_nat i, Z.of_nat j) ∧
               trials si !! i = Some q.1 ∧ trials si !! j = Some q.2.

(** The identifier handed to [mark_comparison_ready] designates the trial
    with id [tid]: a live handle of that trial, or an integer that the
    store resolves to it. *)
Definition designates (self : PreferentialStudy) (x : pyobj) (tid : Z)
    (st : Storage) : Prop :=
  match x with
  | ObjTrial t => _trial_id t = tid ∧ BaseStorage.has_trial tid st
  | ObjValue v =>
      ∃ n, isinstance_int v = Some n ∧
           BaseStorage.get_trial_id_from_study_id_trial_number
             (_study_id (_study self)) n st = Return tid
  end.

(** ** How the store evolves *)

(** [t'] is a later snapshot of the trial [t]: same number and id, and
    still ready if [t] was. *)
Definition trial_le (t t' : FrozenTrial) : Prop :=
  number t' = number t ∧ trial_id t' = trial_id t ∧ (ready t → ready t').

(** The store refuses to update the trial with this id: it has finished. *)
Definition finished (st : Storage) (tid : Z) : Prop :=
  BaseStorage.has_finished_trial tid st.

(** [si'] is a later state of the study [si]: the name is kept, a truthy
    preferential marker stays truthy, every trial is still at its position
    and the Ledger has only been appended to. *)
Definition study_le (si si' : StudyInfo) : Prop :=
  study_name si' = study_name si ∧
  (truthy (dict_get (study_system_attrs si) _SYSTEM_ATTR_PREFERENTIAL_STUDY) = true →
   truthy (dict_get (study_system_attrs si') _SYSTEM_ATTR_PREFERENTIAL_STUDY) = true) ∧
  (∀ (i : nat) t, trials si !! i = Some t →
                  ∃ t', trials si' !! i = Some t' ∧ trial_le t t') ∧
  preferences si `prefix_of` preferences si'.

Definition store_le (st st' : Storage) : Prop :=
  ∀ sid si, studies st !! sid = Some si →
            ∃ si', studies st' !! sid = Some si' ∧ study_le si si'.

(** Every study of the store numbers its trials by position. *)
Definition all_dense (st : Storage) : Prop :=
  ∀ sid si, studies st !! sid = Some si → dense si.

Definition keeps_dense (st st' : Storage) : Prop := all_dense st → all_dense st'.

(** The store a computation leaves is related to the one it started in. *)
Definition stable (R : relation Storage) {A} (m : M A) : Prop :=
  ∀ st, R st (m st).1.

Definition mark (tid : Z) : FrozenTrial → FrozenTrial :=
  BaseStorage.set_attr_of tid _SYSTEM_ATTR_COMPARISON_READY (PyBool true).

Definition mark_all (tid : Z) (st : Storage) : Storage :=
  with_studies (fmap (with_trials (fmap (mark tid)))) st.

(** The store once a new study named [n] has been entered. *)
Definition new_study_store (st : Storage) (n : string) : Storage :=
  {| studies :=
       <[fresh (dom (studies st)) :=
           {| study_name := n; study_system_attrs := ∅; study_user_attrs := ∅;
              trials := []; preferences := [] |}]> (studies st);
     study_name_to_id := <[n := fresh (dom (studies st))]> (study_name_to_id st);
     max_trial_id := max_trial_id st |}.

(** The same store once the new study has been tagged as preferential. *)
Definition marked_study_store (st : Storage) (n : string) : Storage :=
  with_studies
    (insert (fresh (dom (studies st)))
       (with_study_system_attrs
          (insert _SYSTEM_ATTR_PREFERENTIAL_STUDY (PyBool true))
          {| study_name := n; study_system_attrs := ∅; study_user_attrs := ∅;
             trials := []; preferences := [] |}))
    (new_study_store st n).

(** ** Example stores *)

Definition example_trial (n : Z) (s : TrialState) (attrs : gmap string pyval)
    : FrozenTrial :=
  {| number := n; state := s; system_attrs := attrs; user_attrs := ∅;
     trial_id := 10 + n |}.

Definition flag (v : pyval) : gmap string pyval :=
  {[ _SYSTEM_ATTR_COMPARISON_READY := v ]}.

(** Study 0 is preferential and holds six trials with dense numbers;
    study 1 was made by plain optuna and has no marker. *)
Definition example_study : StudyInfo :=
  {| study_name := "s";
     study_system_attrs := {[ _SYSTEM_ATTR_PREFERENTIAL_STUDY := PyBool true ]};
     study_user_attrs := ∅;
     trials := [ example_trial 0 COMPLETE (flag (PyBool true));
                 example_trial 1 RUNNING (flag (PyBool true));
                 example_trial 2 COMPLETE (flag (PyInt 1));
                 example_trial 3 COMPLETE ∅;
                 example_trial 4 FAIL (flag (PyBool true));
                 example_trial 5 RUNNING (flag (PyStr "yes")) ];
     preferences := [(0, 1); (1, 3); (0, 1)] |}.

Definition plain_study : StudyInfo :=
  {| study_name := "plain";
     study_system_attrs := ∅;
     study_user_attrs := ∅;
     trials := [];
     preferences := [] |}.

Definition example_store : Storage :=
  {| studies := {[ 0 := example_study; 1 := plain_study ]};
     study_name_to_id := {[ "s"%string := 0; "plain"%string := 1 ]};
     max_trial_id := 15 |}.

(** A study whose store omits number 1. *)
Definition sparse_study : StudyInfo :=
  {| study_name := "sparse";
     study_system_attrs := {[ _SYSTEM_ATTR_PREFERENTIAL_STUDY := PyBool true ]};
     study_user_attrs := ∅;
     trials := [ example_trial 0 COMPLETE ∅;
                 example_trial 2 COMPLETE ∅;
                 example_trial 3 COMPLETE ∅ ];
     preferences := [(2, 0)] |}.

Definition sparse_store : Storage :=
  {| studies := {[ 0 := sparse_study ]};
     study_name_to_id := {[ "sparse"%string := 0 ]};
     max_trial_id := 13 |}.

Definition example_self : PreferentialStudy := mkPreferentialStudy (mkStudy 0).

(** The scenario of the specification: a new study, three trials asked,
    all marked ready, trial 0 preferred to trials 1 and 2. *)
Definition scenario
    : M (PreferentialStudy * FrozenTrial * FrozenTrial * FrozenTrial) :=
  let! self := λ _, create_study None (Some "scenario"%string) false "generated" in
  let! h0 := PreferentialStudy.ask self in
  let! h1 := PreferentialStudy.ask self in
  let! h2 := PreferentialStudy.ask self in
  let! _ := PreferentialStudy.mark_comparison_ready self (ObjTrial h0) in
  let! _ := PreferentialStudy.mark_comparison_ready self (ObjValue (PyInt 1)) in
  let! _ := PreferentialStudy.mark_comparison_ready self (ObjTrial h2) in
  let! ts := PreferentialStudy.trials self in
  match ts with
  | [t0; t1; t2] =>
      let! _ := PreferentialStudy.report_preference self
                  (OneTrial t0) (TrialList [t1; t2]) in
      ret (self, t0, t1, t2)
  | _ => raise AssertionError
  end.

(** ** Python indexing *)

(** [i] is a valid index of a list of length [n]. *)
Definition in_range (n : nat) (i : Z) : Prop := - Z.of_nat n ≤ i < Z.of_nat n.

(** The position a valid index denotes: negative indices count from the
    end. *)
Definition wrapped (n : nat) (i : Z) : nat := Z.to_nat (i mod Z.of_nat n).

(** Both numbers of a statement are valid indices. *)
Definition statement_in_range (n : nat) (p : Z * Z) : Prop :=
  in_range n p.1 ∧ in_range n p.2.

#[global] Instance in_range_dec n i : Decision (in_range n i).
Proof. unfold in_range. apply _. Defined.

#[global] Instance statement_in_range_dec n p : Decision (statement_in_range n p).
Proof. unfold statement_in_range. apply _. Defined.

(** ** More example stores *)

(** Study 0 holds a statement with a negative number, study 1 one with a
    number that is no index of its three trials. *)
Definition wrapping_study : StudyInfo :=
  {| study_name := "wrapping";
     study_system_attrs := {[ _SYSTEM_ATTR_PREFERENTIAL_STUDY := PyBool true ]};
     study_user_attrs := ∅;
     trials := [ example_trial 0 COMPLETE ∅;
                 example_trial 1 COMPLETE ∅;
                 example_trial 2 COMPLETE ∅ ];
     preferences := [(-1, 0)] |}.

Definition dangling_study : StudyInfo :=
  {| study_name := "dangling";
     study_system_attrs := {[ _SYSTEM_ATTR_PREFERENTIAL_STUDY := PyBool true ]};
     study_user_attrs := ∅;
     trials := [ example_trial 0 COMPLETE ∅;
                 example_trial 1 COMPLETE ∅;
                 example_trial 2 COMPLETE ∅ ];
     preferences := [(0, 1); (3, 0)] |}.

Definition edge_store : Storage :=
  {| studies := {[ 0 := wrapping_study; 1 := dangling_study ]};
     study_name_to_id := {[ "wrapping"%string := 0; "dangling"%string := 1 ]};
     max_trial_id := 12 |}.

(** The example study with another Ledger that has the same losers. *)
Definition retold_study : StudyInfo :=
  with_preferences (λ _, [(4, 3); (2, 1); (2, 3); (4, 3)]) example_study.

Definition retold_store : Storage :=
  {| studies := {[ 7 := retold_study ]};
     study_name_to_id := {[ "s"%string := 7 ]};
     max_trial_id := 15 |}.

(** A store built by calls from the empty one. *)
Definition reached_store : Storage :=
  run_op (ReportPreference example_self
            (OneTrial (example_trial 0 RUNNING ∅)) (OneTrial (example_trial 1 RUNNING ∅)))
    (run_op (Ask example_self)
       (run_op (Ask example_self)
          (run_op (CreateStudy (Some "s"%string) false "generated") empty_storage))).

Definition reached_study : StudyInfo :=
  {| study_name := "s";
     study_system_attrs := {[ _SYSTEM_ATTR_PREFERENTIAL_STUDY := PyBool true ]};
     study_user_attrs := ∅;
     trials := [ {| number := 0; state := RUNNING; system_attrs := ∅;
                    user_attrs := ∅; trial_id := 0 |};
                 {| number := 1; state := RUNNING; system_attrs := ∅;
                    user_attrs := ∅; trial_id := 1 |} ];
     preferences := [(0, 1)] |}.

(** ** Snapshots and copies *)

Lemma deepcopy_id t : deepcopy t = t.
Proof. by destruct t. Qed.

Lemma fmap_deepcopy (l : list FrozenTrial) : deepcopy <$> l = l.
Proof.
  induction l as [|t l IH]; [done|].
  rewrite fmap_cons, deepcopy_id. by f_equal.
Qed.

Lemma is_True_spec v : is_True v ↔ v = PyBool true.
Proof.
  split; [|by intros ->].
  by destruct v as [|[]| | |].
Qed.

Lemma is_True_ready t :
  is_True (dict_get (system_attrs t) _SYSTEM_ATTR_COMPARISON_READY) ↔ ready t.
Proof.
  rewrite is_True_spec. unfold dict_get, ready.
  destruct (system_attrs t !! _) as [v|]; simpl; [|done].
  split; congruence.
Qed.

Lemma elem_of_worse_numbers (ledger : list (Z * Z)) n :
  n ∈ (list_to_set (snd <$> ledger) : gset Z) ↔ lost ledger n.
Proof.
  rewrite elem_of_list_to_set, list_elem_of_fmap. unfold lost. split.
  - intros [[b w] [-> Hin]]. by exists b.
  - intros [b Hin]. by exists (b, n).
Qed.

(** ** The frontier *)

Lemma get_best_trials_eq sid st si :
  studies st !! sid = Some si →
  get_best_trials sid st = Return (filter (frontier_member si) (trials si)).
Proof.
  intros Hsi. unfold get_best_trials, BaseStorage.get_all_trials,
    _system_attrs.get_preferences.
  rewrite Hsi. simpl. f_equal. rewrite fmap_deepcopy.
  rewrite !list_filter_filter. apply list_filter_iff. intros t.
  rewrite elem_of_worse_numbers, is_True_ready. unfold frontier_member.
  rewrite !elem_of_cons, elem_of_nil. tauto.
Qed.

(** C1.  In every store state in which the study exists, [get_best_trials]
    returns exactly the deep copies of the trials whose state is COMPLETE
    or RUNNING, whose comparison-ready flag is set and whose number never
    appears as the worse element of a recorded statement, in store order.
    A ready trial that no statement mentions is in the result; a ready
    trial that is the worse element of one statement is not, whatever it
    won; a trial that is not ready is not, whatever the ledger holds. *)
Theorem get_best_trials_is_frontier sid st si :
  studies st !! sid = Some si →
  ∃ best,
    get_best_trials sid st = Return best ∧
    best = deepcopy <$> filter (frontier_member si) (trials si) ∧
    (∀ t, t ∈ best ↔ t ∈ trials si ∧ frontier_member si t) ∧
    (∀ t, t ∈ trials si → state t = COMPLETE ∨ state t = RUNNING → ready t →
          (∀ b w, (b, w) ∈ preferences si → b ≠ number t ∧ w ≠ number t) →
          t ∈ best) ∧
    (∀ t b, ready t → (b, number t) ∈ preferences si → t ∉ best) ∧
    (∀ t, ¬ ready t → t ∉ best).
Proof.
  intros Hsi. eexists. split; [by apply get_best_trials_eq|].
  rewrite fmap_deepcopy. split; [done|].
  assert (Hmem : ∀ t, t ∈ filter (frontier_member si) (trials si)
                      ↔ t ∈ trials si ∧ frontier_member si t).
  { intros t. rewrite list_elem_of_filter. tauto. }
  split; [exact Hmem|]. repeat split.
  - intros t Hin Hstate Hready Hnone. apply Hmem. split; [done|].
    repeat split; [done..|]. intros [b Hb]. by destruct (Hnone _ _ Hb).
  - intros t b Hready Hb [_ (_ & _ & Hnot)]%Hmem. apply Hnot. by exists b.
  - intros t Hnot [_ (_ & Hready & _)]%Hmem. done.
Qed.

(** C10.  A trial is in the ready pool only when its comparison-ready
    attribute is exactly the boolean [True]: every returned trial carries
    [True], and a trial whose attribute is absent or holds any other value,
    truthy or not, is not returned. *)
Theorem get_best_trials_requires_exactly_True sid st si :
  studies st !! sid = Some si →
  ∃ best,
    get_best_trials sid st = Return best ∧
    (∀ t, t ∈ best →
          system_attrs t !! _SYSTEM_ATTR_COMPARISON_READY = Some (PyBool true)) ∧
    (∀ t, system_attrs t !! _SYSTEM_ATTR_COMPARISON_READY = None → t ∉ best) ∧
    (∀ t v, system_attrs t !! _SYSTEM_ATTR_COMPARISON_READY = Some v →
            v ≠ PyBool true → t ∉ best).
Proof.
  intros Hsi. eexists. split; [by apply get_best_trials_eq|].
  assert (Hready : ∀ t, t ∈ filter (frontier_member si) (trials si) → ready t).
  { intros t [(_ & Hr & _) _]%list_elem_of_filter. exact Hr. }
  repeat split.
  - exact Hready.
  - intros t Hnone Hin%Hready. unfold ready in Hin. congruence.
  - intros t v Hv Hne Hin%Hready. unfold ready in Hin. congruence.
Qed.

(** ** Reporting preferences *)

Lemma report_preferences_eq sid prefs st si :
  studies st !! sid = Some si →
  _system_attrs.report_preferences sid prefs st =
    (with_studies (insert sid (with_preferences (λ l, l ++ prefs) si)) st,
     Return tt).
Proof. intros Hsi. unfold _system_attrs.report_preferences. by rewrite Hsi. Qed.

Lemma lookup_with_studies_insert sid si st :
  studies (with_studies (insert sid si) st) !! sid = Some si.
Proof. simpl. apply lookup_insert_eq. Qed.

Lemma lost_app ledger1 ledger2 n :
  lost (ledger1 ++ ledger2) n ↔ lost ledger1 n ∨ lost ledger2 n.
Proof.
  unfold lost. split.
  - intros [b [Hb|Hb]%elem_of_app]; eauto.
  - intros [[b Hb]|[b Hb]]; exists b; apply elem_of_app; auto.
Qed.

(** C4.  After [report_preference(A, B)] and then [report_preference(B, A)]
    neither [A] nor [B] is in the frontier, and no returned trial has the
    number of either: the frontier is the one before the two calls with
    the trials numbered like [A] or [B] removed. *)
Theorem cycle_excludes_both self a b st si :
  studies st !! _study_id (_study self) = Some si →
  ∃ st' before after,
    (let! _ := PreferentialStudy.report_preference self (OneTrial a) (OneTrial b) in
     PreferentialStudy.report_preference self (OneTrial b) (OneTrial a)) st
      = (st', Return tt) ∧
    get_best_trials (_study_id (_study self)) st = Return before ∧
    get_best_trials (_study_id (_study self)) st' = Return after ∧
    (a ∉ after) ∧ (b ∉ after) ∧
    after = filter (λ t, number t ≠ number a ∧ number t ≠ number b) before.
Proof.
  intros Hsi. destruct self as [[sid]]. simpl in *.
  unfold bind, PreferentialStudy.report_preference. simpl.
  rewrite (report_preferences_eq _ _ _ _ Hsi).
  rewrite (report_preferences_eq _ _ _ _ (lookup_with_studies_insert _ _ _)).
  do 3 eexists. split; [reflexivity|].
  split; [by apply get_best_trials_eq|].
  split; [apply get_best_trials_eq, lookup_with_studies_insert|].
  simpl.
  assert (Hlost : ∀ n, lost ((preferences si ++ [(number a, number b)])
                               ++ [(number b, number a)]) n
                       ↔ lost (preferences si) n ∨ n = number a ∨ n = number b).
  { intros n. rewrite !lost_app.
    assert (Hone : ∀ x y, lost [(x, y)] n ↔ n = y).
    { intros x y. unfold lost. split.
      - intros [c Hc%list_elem_of_singleton]. congruence.
      - intros ->. exists x. by apply list_elem_of_singleton. }
    rewrite !Hone. tauto. }
  repeat split.
  - intros [(_ & _ & Hnot) _]%list_elem_of_filter. apply Hnot, Hlost. auto.
  - intros [(_ & _ & Hnot) _]%list_elem_of_filter. apply Hnot, Hlost. auto.
  - rewrite list_filter_filter. apply list_filter_iff. intros t.
    unfold frontier_member. simpl. rewrite Hlost.
    destruct (decide (number t = number a)), (decide (number t = number b)); tauto.
Qed.



(** ** Resolving statements to trials *)

Lemma py_index_lookup {A} (l : list A) (i : nat) x :
  l !! i = Some x → py_index l (Z.of_nat i) = Return x.
Proof.
  intros Hx. pose proof (lookup_lt_Some _ _ _ Hx) as Hlt.
  unfold py_index. cbv zeta.
  destruct (decide (Z.of_nat i < 0)) as [?|_]; [lia|].
  rewrite decide_True by lia. by rewrite Nat2Z.id, Hx.
Qed.

Lemma for_each_Forall2 {A B} (f : A → outcome B) (R : A → B → Prop) l :
  (∀ x, x ∈ l → ∃ y, f x = Return y ∧ R x y) →
  ∃ l', for_each f l = Return l' ∧ Forall2 R l l'.
Proof.
  induction l as [|x l IH]; intros Hall.
  - exists []. by split.
  - destruct (Hall x) as (y & Hy & HR); [apply elem_of_cons; auto|].
    destruct IH as (l' & Hl' & HF).
    { intros x' Hx'. apply Hall, elem_of_cons. auto. }
    exists (y :: l'). simpl. rewrite Hy. simpl. rewrite Hl'. simpl.
    split; [done|]. by constructor.
Qed.

Lemma get_preferences_positional self deepcopy_flag st si :
  studies st !! _study_id (_study self) = Some si →
  (∀ p, p ∈ preferences si →
        ∃ (i j : nat) tb tw, p = (Z.of_nat i, Z.of_nat j) ∧
          trials si !! i = Some tb ∧ trials si !! j = Some tw) →
  ∃ resolved,
    PreferentialStudy.get_preferences self deepcopy_flag st = (st, Return resolved) ∧
    Forall2 (at_positions si) (preferences si) resolved.
Proof.
  intros Hsi Hvalid.
  unfold PreferentialStudy.get_preferences, bind, optuna.get_trials, query,
    BaseStorage.get_all_trials, _system_attrs.get_preferences.
  rewrite Hsi.
  replace (if deepcopy_flag then deepcopy <$> trials si else trials si)
    with (trials si) by (destruct deepcopy_flag; by rewrite ?fmap_deepcopy).
  match goal with
  | |- context [for_each ?f ?l] =>
      destruct (for_each_Forall2 f (at_positions si) l) as (resolved & Heq & HF)
  end.
  - intros p (i & j & tb & tw & -> & Hb & Hw)%Hvalid. exists (tb, tw). simpl.
    rewrite (py_index_lookup _ _ _ Hb). simpl.
    rewrite (py_index_lookup _ _ _ Hw). simpl.
    split; [done|]. by exists i, j.
  - exists resolved. by rewrite Heq.
Qed.

Lemma dense_position si n :
  dense si → has_number si n →
  ∃ (i : nat) t, n = Z.of_nat i ∧ trials si !! i = Some t.
Proof.
  intros Hdense (t & [i Hi]%list_elem_of_lookup & <-).
  exists i, t. split; [by apply Hdense|done].
Qed.

Lemma dense_resolves si p q :
  dense si → at_positions si p q → resolves si p q.
Proof.
  intros Hdense (i & j & -> & Hb & Hw). unfold resolves. simpl.
  rewrite (Hdense _ _ Hb), (Hdense _ _ Hw).
  repeat split; try done; apply list_elem_of_lookup; eauto.
Qed.

(** C8.  In a study whose trial numbers equal their positions in the
    store's trial list, [get_preferences] resolves every Ledger statement
    (b, w) that references trials of the study to the pair of snapshots
    numbered b and w, in Ledger order.  The resolution is by position:
    in a study whose store omits a number, a statement is resolved to a
    trial with another number. *)
Theorem get_preferences_resolves_by_number :
  (∀ self deepcopy_flag st si,
     studies st !! _study_id (_study self) = Some si →
     dense si →
     (∀ b w, (b, w) ∈ preferences si → has_number si b ∧ has_number si w) →
     ∃ resolved,
       PreferentialStudy.get_preferences self deepcopy_flag st
         = (st, Return resolved) ∧
       Forall2 (resolves si) (preferences si) resolved) ∧
  (¬ dense sparse_study ∧
   (∀ b w, (b, w) ∈ preferences sparse_study →
           has_number sparse_study b ∧ has_number sparse_study w) ∧
   ∃ resolved,
     PreferentialStudy.get_preferences example_self true sparse_store
       = (sparse_store, Return resolved) ∧
     ¬ Forall2 (resolves sparse_study) (preferences sparse_study) resolved).
Proof.
  split.
  - intros self dc st si Hsi Hdense Hvalid.
    destruct (get_preferences_positional self dc st si Hsi) as (resolved & Heq & HF).
    { intros [b w] [Hb Hw]%Hvalid.
      destruct (dense_position _ _ Hdense Hb) as (i & tb & -> & Hi).
      destruct (dense_position _ _ Hdense Hw) as (j & tw & -> & Hj).
      by exists i, j, tb, tw. }
    exists resolved. split; [done|].
    eapply Forall2_impl; [exact HF|]. intros p q. by apply dense_resolves.
  - split; [|split].
    + intros Hdense. specialize (Hdense 1%nat _ eq_refl). done.
    + intros b w [= -> ->]%list_elem_of_singleton.
      split; [exists (example_trial 2 COMPLETE ∅) | exists (example_trial 0 COMPLETE ∅)];
        (split; [|reflexivity]); apply list_elem_of_lookup;
        [by exists 1%nat | by exists 0%nat].
    + eexists. split; [by vm_compute|].
      intros HF. apply Forall2_cons_1 in HF as [(_ & _ & Hn & _) _].
      done.
Qed.

(** ** Round trip through the Ledger *)








(** ** Marking trials ready *)

Lemma has_trial_spec tid st :
  BaseStorage.has_trial tid st ↔
  ∃ sid si t, studies st !! sid = Some si ∧ t ∈ trials si ∧ trial_id t = tid.
Proof.
  unfold BaseStorage.has_trial. rewrite map_Exists_lookup. split.
  - intros (sid & si & Hsi & (t & Ht & Hid)%Exists_exists). by exists sid, si, t.
  - intros (sid & si & t & Hsi & Ht & Hid). exists sid, si. split; [done|].
    apply Exists_exists. by exists t.
Qed.

Lemma mark_number tid t : number (mark tid t) = number t.
Proof. unfold mark, BaseStorage.set_attr_of. by case_decide. Qed.

Lemma mark_trial_id tid t : trial_id (mark tid t) = trial_id t.
Proof. unfold mark, BaseStorage.set_attr_of. by case_decide. Qed.

Lemma mark_state tid t : state (mark tid t) = state t.
Proof. unfold mark, BaseStorage.set_attr_of. by case_decide. Qed.

Lemma mark_ready_same tid t : trial_id t = tid → ready (mark tid t).
Proof.
  intros Hid. unfold mark, BaseStorage.set_attr_of, ready.
  rewrite decide_True by done. simpl. apply lookup_insert_eq.
Qed.

Lemma mark_ready_mono tid t : ready t → ready (mark tid t).
Proof.
  intros Hr. unfold mark, BaseStorage.set_attr_of.
  case_decide; [|done]. unfold ready. simpl. apply lookup_insert_eq.
Qed.

Lemma mark_idemp tid t : mark tid (mark tid t) = mark tid t.
Proof.
  unfold mark, BaseStorage.set_attr_of.
  destruct (decide (trial_id t = tid)) as [Hid|Hid].
  - simpl. rewrite decide_True by done.
    unfold with_system_attrs. simpl. by rewrite insert_insert_eq.
  - by rewrite decide_False.
Qed.

Lemma mark_already tid t : (trial_id t = tid → ready t) → mark tid t = t.
Proof.
  intros Hr. unfold mark, BaseStorage.set_attr_of.
  case_decide as Hid; [|done]. specialize (Hr Hid).
  destruct t as [n s attrs uattrs i]. unfold with_system_attrs, ready in *.
  simpl in *. by rewrite insert_id.
Qed.

Lemma lookup_mark_all tid st sid :
  studies (mark_all tid st) !! sid
    = with_trials (fmap (mark tid)) <$> studies st !! sid.
Proof. unfold mark_all. simpl. apply lookup_fmap. Qed.

Lemma has_trial_mark_all tid tid' st :
  BaseStorage.has_trial tid st → BaseStorage.has_trial tid (mark_all tid' st).
Proof.
  rewrite !has_trial_spec. intros (sid & si & t & Hsi & Ht & Hid).
  exists sid, (with_trials (fmap (mark tid')) si), (mark tid' t).
  rewrite lookup_mark_all, Hsi. split; [done|]. split.
  - simpl. apply list_elem_of_fmap. by exists t.
  - by rewrite mark_trial_id.
Qed.

Lemma mark_all_idemp tid st : mark_all tid (mark_all tid st) = mark_all tid st.
Proof.
  unfold mark_all, with_studies. simpl. f_equal.
  rewrite <- map_fmap_compose. apply map_fmap_ext. intros sid si _.
  unfold with_trials. simpl. f_equal.
  rewrite <- list_fmap_compose. apply list_fmap_ext. intros i t _.
  apply mark_idemp.
Qed.

Lemma mark_all_already tid st :
  (∀ sid si t, studies st !! sid = Some si → t ∈ trials si →
               trial_id t = tid → ready t) →
  mark_all tid st = st.
Proof.
  intros Hr. destruct st as [ss names mx]. unfold mark_all, with_studies.
  simpl in *. f_equal.
  rewrite <- (map_fmap_id ss) at 2. apply map_fmap_ext. intros sid si Hsi.
  destruct si as [nm sa ua ts ps]. unfold with_trials. simpl. f_equal.
  rewrite <- (list_fmap_id ts) at 2. apply list_fmap_ext. intros i t Hi.
  apply mark_already. intros Hid. eapply (Hr sid); [done| |done].
  simpl. apply list_elem_of_lookup. eauto.
Qed.

Lemma has_finished_spec tid st :
  BaseStorage.has_finished_trial tid st ↔
  ∃ sid si t, studies st !! sid = Some si ∧ t ∈ trials si ∧
              trial_id t = tid ∧ is_finished (state t).
Proof.
  unfold BaseStorage.has_finished_trial. rewrite map_Exists_lookup. split.
  - intros (sid & si & Hsi & (t & Ht & Hid & Hfin)%Exists_exists).
    by exists sid, si, t.
  - intros (sid & si & t & Hsi & Ht & Hid & Hfin). exists sid, si.
    split; [done|]. apply Exists_exists. by exists t.
Qed.

Lemma has_finished_mark_all tid tid' st :
  BaseStorage.has_finished_trial tid (mark_all tid' st)
  ↔ BaseStorage.has_finished_trial tid st.
Proof.
  rewrite !has_finished_spec. split.
  - intros (sid & si & t & Hsi & Ht & Hid & Hfin).
    rewrite lookup_mark_all in Hsi.
    destruct (studies st !! sid) as [si0|] eqn:Hsi0; [|done].
    injection Hsi as <-. simpl in Ht.
    apply list_elem_of_fmap in Ht as (t0 & -> & Ht0).
    rewrite mark_trial_id in Hid. rewrite mark_state in Hfin.
    by exists sid, si0, t0.
  - intros (sid & si & t & Hsi & Ht & Hid & Hfin).
    exists sid, (with_trials (fmap (mark tid')) si), (mark tid' t).
    rewrite lookup_mark_all, Hsi, mark_trial_id, mark_state.
    split; [done|]. split; [|done].
    simpl. apply list_elem_of_fmap. by exists t.
Qed.

Lemma set_trial_system_attr_ready tid st :
  BaseStorage.set_trial_system_attr tid _SYSTEM_ATTR_COMPARISON_READY (PyBool true) st
  = if decide (BaseStorage.has_trial tid st) then
      if decide (BaseStorage.has_finished_trial tid st) then
        (st, Raise (RuntimeError (BaseStorage.finished_message tid st)))
      else (mark_all tid st, Return tt)
    else (st, Raise KeyError).
Proof. done. Qed.

Lemma set_ready_store tid st :
  (BaseStorage.set_trial_system_attr tid _SYSTEM_ATTR_COMPARISON_READY
     (PyBool true) st).1 = st ∨
  (BaseStorage.set_trial_system_attr tid _SYSTEM_ATTR_COMPARISON_READY
     (PyBool true) st).1 = mark_all tid st.
Proof.
  rewrite set_trial_system_attr_ready. repeat case_decide; simpl; auto.
Qed.

Lemma set_ready_again tid st :
  BaseStorage.set_trial_system_attr tid _SYSTEM_ATTR_COMPARISON_READY (PyBool true)
    (BaseStorage.set_trial_system_attr tid _SYSTEM_ATTR_COMPARISON_READY
       (PyBool true) st).1
  = BaseStorage.set_trial_system_attr tid _SYSTEM_ATTR_COMPARISON_READY
      (PyBool true) st.
Proof.
  rewrite (set_trial_system_attr_ready tid st).
  destruct (decide (BaseStorage.has_trial tid st)) as [Hhas|Hno]; simpl.
  - destruct (decide (BaseStorage.has_finished_trial tid st)) as [Hfin|Hnot]; simpl.
    + rewrite set_trial_system_attr_ready. by rewrite !decide_True.
    + rewrite set_trial_system_attr_ready.
      rewrite decide_True by (by apply has_trial_mark_all).
      rewrite decide_False by (by rewrite has_finished_mark_all).
      by rewrite mark_all_idemp.
  - rewrite set_trial_system_attr_ready. by rewrite decide_False.
Qed.

Lemma py_index_elem_of {A} (l : list A) i x : py_index l i = Return x → x ∈ l.
Proof.
  unfold py_index. cbv zeta. case_decide; [|done].
  destruct (l !! _) as [y|] eqn:Hy; [|done].
  intros [= <-]. apply list_elem_of_lookup. eauto.
Qed.

Lemma py_index_fmap {A B} (f : A → B) (l : list A) i :
  py_index (f <$> l) i = let? x := py_index l i in Return (f x).
Proof.
  unfold py_index. cbv zeta. rewrite length_fmap.
  case_decide; [|done]. rewrite list_lookup_fmap.
  by destruct (l !! _).
Qed.

Lemma get_trial_id_mark_all sid n tid st :
  BaseStorage.get_trial_id_from_study_id_trial_number sid n (mark_all tid st)
  = BaseStorage.get_trial_id_from_study_id_trial_number sid n st.
Proof.
  unfold BaseStorage.get_trial_id_from_study_id_trial_number.
  rewrite lookup_mark_all. destruct (studies st !! sid) as [si|]; [|done].
  simpl. rewrite length_fmap. case_decide; [done|].
  rewrite py_index_fmap. destruct (py_index (trials si) n) as [t|e]; [|done].
  simpl. by rewrite mark_number, mark_trial_id.
Qed.

Lemma resolved_has_trial sid n tid st :
  BaseStorage.get_trial_id_from_study_id_trial_number sid n st = Return tid →
  BaseStorage.has_trial tid st.
Proof.
  unfold BaseStorage.get_trial_id_from_study_id_trial_number.
  destruct (studies st !! sid) as [si|] eqn:Hsi; [|done].
  case_decide; [done|].
  destruct (py_index (trials si) n) as [t|e] eqn:Hidx; [|done]. simpl.
  case_decide; [|done]. intros [= <-].
  apply has_trial_spec. exists sid, si, t. split; [done|]. split; [|done].
  by eapply py_index_elem_of.
Qed.

Lemma designates_has_trial self x tid st :
  designates self x tid st → BaseStorage.has_trial tid st.
Proof.
  destruct x as [t|v]; simpl.
  - by intros [_ ?].
  - intros (n & _ & Hres). by eapply resolved_has_trial.
Qed.

(** What [mark_comparison_ready] comes to on an identifier that
    designates a trial: the store's update of that trial. *)
Lemma mark_comparison_ready_set self x tid st :
  designates self x tid st →
  PreferentialStudy.mark_comparison_ready self x st
  = BaseStorage.set_trial_system_attr tid _SYSTEM_ATTR_COMPARISON_READY
      (PyBool true) st.
Proof.
  intros Hx. unfold PreferentialStudy.mark_comparison_ready, bind.
  destruct x as [t|v]; simpl in Hx.
  - by destruct Hx as [-> _].
  - destruct Hx as (n & -> & Hres). unfold query. by rewrite Hres.
Qed.

Lemma mark_comparison_ready_designated self x tid st :
  designates self x tid st → ¬ finished st tid →
  PreferentialStudy.mark_comparison_ready self x st = (mark_all tid st, Return tt).
Proof.
  intros Hx Hnot. pose proof (designates_has_trial _ _ _ _ Hx) as Hhas.
  rewrite (mark_comparison_ready_set _ _ _ _ Hx), set_trial_system_attr_ready.
  rewrite decide_True by done. by rewrite decide_False.
Qed.

Lemma mark_comparison_ready_finished self x tid st :
  designates self x tid st → finished st tid →
  PreferentialStudy.mark_comparison_ready self x st
  = (st, Raise (RuntimeError (BaseStorage.finished_message tid st))).
Proof.
  intros Hx Hfin. pose proof (designates_has_trial _ _ _ _ Hx) as Hhas.
  rewrite (mark_comparison_ready_set _ _ _ _ Hx), set_trial_system_attr_ready.
  by rewrite !decide_True.
Qed.

Lemma mark_all_ready tid st :
  BaseStorage.has_trial tid st →
  comparison_ready (mark_all tid st) tid ∧
  (∀ sid si t, studies (mark_all tid st) !! sid = Some si → t ∈ trials si →
               trial_id t = tid → ready t).
Proof.
  intros Hhas. split.
  - apply has_trial_spec in Hhas as (sid & si & t & Hsi & Ht & Hid).
    exists sid, (with_trials (fmap (mark tid)) si), (mark tid t).
    rewrite lookup_mark_all, Hsi. split; [done|]. split.
    { simpl. apply list_elem_of_fmap. by exists t. }
    split; [by rewrite mark_trial_id|by apply mark_ready_same].
  - intros sid si t. rewrite lookup_mark_all.
    destruct (studies st !! sid) as [si0|]; [|done].
    intros [= <-]. simpl.
    intros (t0 & -> & Ht0)%list_elem_of_fmap. rewrite mark_trial_id.
    apply mark_ready_same.
Qed.

(** C6, as amended.  Handed something that is neither a trial handle nor
    an integer, [mark_comparison_ready] raises the invalid-argument error
    and leaves the store as it was.  Handed a live handle, or an integer
    that the store resolves to a trial id, of a trial that has not
    finished, it returns, and in the store it leaves every trial with that
    id, and at least one, has the comparison-ready flag [True].  When the
    trial has finished, the store's [RuntimeError] reaches the caller and
    the store is left as it was. *)
Theorem mark_comparison_ready_dispatch self :
  (∀ v st,
     isinstance_int v = None →
     PreferentialStudy.mark_comparison_ready self (ObjValue v) st
       = (st, Raise (RuntimeError "Unexpected trial type"))) ∧
  (∀ x tid st,
     designates self x tid st →
     ¬ finished st tid →
     ∃ st',
       PreferentialStudy.mark_comparison_ready self x st = (st', Return tt) ∧
       comparison_ready st' tid ∧
       (∀ sid si t, studies st' !! sid = Some si → t ∈ trials si →
                    trial_id t = tid → ready t)) ∧
  (∀ x tid st,
     designates self x tid st →
     finished st tid →
     ∃ msg,
       PreferentialStudy.mark_comparison_ready self x st
         = (st, Raise (RuntimeError msg)) ∧
       msg ≠ "Unexpected trial type"%string).
Proof.
  split; [|split].
  - intros v st Hv. unfold PreferentialStudy.mark_comparison_ready, bind.
    by rewrite Hv.
  - intros x tid st Hx Hnot. exists (mark_all tid st).
    split; [by apply mark_comparison_ready_designated|].
    apply mark_all_ready. by eapply designates_has_trial.
  - intros x tid st Hx Hfin. eexists.
    split; [by apply mark_comparison_ready_finished|]. done.
Qed.

Lemma mark_comparison_ready_twice self x st :
  PreferentialStudy.mark_comparison_ready self x
    (PreferentialStudy.mark_comparison_ready self x st).1
  = PreferentialStudy.mark_comparison_ready self x st.
Proof.
  unfold PreferentialStudy.mark_comparison_ready, bind.
  destruct x as [t|v].
  - unfold ret. apply set_ready_again.
  - destruct (isinstance_int v) as [n|]; [|done].
    unfold query.
    destruct (BaseStorage.get_trial_id_from_study_id_trial_number _ n st)
      as [tid|e] eqn:Hres; simpl; [|by rewrite Hres].
    destruct (set_ready_store tid st) as [Hst|Hst]; rewrite Hst.
    + rewrite Hres. rewrite <- Hst at 1. apply set_ready_again.
    + rewrite get_trial_id_mark_all, Hres. rewrite <- Hst at 1.
      apply set_ready_again.
Qed.

(** ** Calls compose *)

Section stable.
Context (R : relation Storage) `{!PreOrder R}.

Lemma stable_ret {A} (a : A) : stable R (ret a).
Proof. intros st. simpl. reflexivity. Qed.

Lemma stable_raise {A} e : stable R (raise (A := A) e).
Proof. intros st. simpl. reflexivity. Qed.

Lemma stable_query {A} (q : Storage → outcome A) : stable R (query q).
Proof. intros st. simpl. reflexivity. Qed.

Lemma stable_bind {A B} (m : M A) (k : A → M B) :
  stable R m → (∀ a, stable R (k a)) → stable R (bind m k).
Proof.
  intros Hm Hk st. unfold bind. specialize (Hm st).
  destruct (m st) as [st1 [a|e]]; simpl in *; [|done].
  etrans; [exact Hm|apply Hk].
Qed.

Lemma stable_try_except {A} (body handler : M A) :
  stable R body → stable R handler →
  stable R (try_except_duplicated body handler).
Proof.
  intros Hb Hh st. unfold try_except_duplicated. specialize (Hb st).
  destruct (body st) as [st1 [a|[]]]; simpl in *; try done.
  etrans; [exact Hb|apply Hh].
Qed.

Lemma stable_load_study name : stable R (load_study name).
Proof.
  unfold load_study, optuna.load_study.
  repeat (apply stable_bind; [|intros ?]);
    try apply stable_query; try apply stable_ret.
  - destruct name; [apply stable_ret|].
    intros st. destruct (BaseStorage.get_all_study_names st) as [|? [|]];
      simpl; reflexivity.
  - case_match; [apply stable_raise|apply stable_ret].
Qed.

Hypothesis stable_create_new_study :
  ∀ name generated, stable R (BaseStorage.create_new_study name generated).
Hypothesis stable_set_marker :
  ∀ sid, stable R (BaseStorage.set_study_system_attr sid
                     _SYSTEM_ATTR_PREFERENTIAL_STUDY (PyBool true)).
Hypothesis stable_set_study_user_attr :
  ∀ sid k v, stable R (BaseStorage.set_study_user_attr sid k v).
Hypothesis stable_create_new_trial :
  ∀ sid tpl, stable R (BaseStorage.create_new_trial sid tpl).
Hypothesis stable_pop_waiting :
  ∀ study, stable R (optuna._pop_waiting_trial_id study).
Hypothesis stable_report_preferences :
  ∀ sid ps, stable R (_system_attrs.report_preferences sid ps).
Hypothesis stable_set_ready :
  ∀ tid, stable R (BaseStorage.set_trial_system_attr tid
                     _SYSTEM_ATTR_COMPARISON_READY (PyBool true)).

Lemma stable_add_trial self t : stable R (PreferentialStudy.add_trial self t).
Proof.
  unfold PreferentialStudy.add_trial, optuna.add_trial.
  apply stable_bind; [done|]. intros _. apply stable_ret.
Qed.

Lemma stable_run_op op st : R st (run_op op st).
Proof.
  destruct op as [name lie g|name|self|self t|self ts|self k v|self b w|self x];
    simpl.
  - apply (stable_try_except _ _).
    + unfold optuna.create_study.
      repeat (apply stable_bind; [|intros ?]); try done; apply stable_ret.
    + destruct lie; [|apply stable_raise].
      destruct name; [apply stable_load_study|apply stable_raise].
  - apply stable_load_study.
  - unfold PreferentialStudy.ask, optuna.ask.
    apply stable_bind; [done|]. intros [tid|]; [apply stable_ret|].
    apply stable_bind; [done|]. intros ?. apply stable_ret.
  - apply stable_add_trial.
  - unfold PreferentialStudy.add_trials. revert st.
    induction ts as [|t ts IH]; [apply stable_ret|].
    simpl. apply stable_bind; [apply (stable_add_trial self)|]. intros _. exact IH.
  - apply stable_set_study_user_attr.
  - apply stable_report_preferences.
  - unfold PreferentialStudy.mark_comparison_ready.
    apply stable_bind; [|done].
    destruct x as [t|v]; [apply stable_ret|].
    destruct (isinstance_int v); [apply stable_query|apply stable_raise].
Qed.

Lemma stable_steps st st' : rtc core_step st st' → R st st'.
Proof.
  induction 1 as [st|st st1 st' [op ->] _ IH]; [reflexivity|].
  etrans; [apply stable_run_op|exact IH].
Qed.

End stable.

(** ** The store only grows *)

Lemma trial_le_refl t : trial_le t t.
Proof. by repeat split. Qed.

Lemma lookup_with_studies_fmap (F : StudyInfo → StudyInfo) st sid :
  studies (with_studies (fmap F) st) !! sid = F <$> studies st !! sid.
Proof. simpl. apply lookup_fmap. Qed.

Lemma start_number tid t : number (BaseStorage.start_trial tid t) = number t.
Proof. unfold BaseStorage.start_trial. by case_decide. Qed.

Lemma start_trial_id tid t : trial_id (BaseStorage.start_trial tid t) = trial_id t.
Proof. unfold BaseStorage.start_trial. by case_decide. Qed.

Lemma start_system_attrs tid t :
  system_attrs (BaseStorage.start_trial tid t) = system_attrs t.
Proof. unfold BaseStorage.start_trial. by case_decide. Qed.

Lemma study_le_refl si : study_le si si.
Proof.
  repeat split; try done.
  intros i t Ht. exists t. split; [done|apply trial_le_refl].
Qed.

#[global] Instance store_le_preorder : PreOrder store_le.
Proof.
  split.
  - intros st sid si Hsi. exists si. split; [done|apply study_le_refl].
  - intros st1 st2 st3 H12 H23 sid si1 Hsi1.
    destruct (H12 _ _ Hsi1) as (si2 & Hsi2 & Hn12 & Hm12 & Ht12 & Hp12).
    destruct (H23 _ _ Hsi2) as (si3 & Hsi3 & Hn23 & Hm23 & Ht23 & Hp23).
    exists si3. split; [done|]. repeat split.
    + congruence.
    + auto.
    + intros i t1 Ht1.
      destruct (Ht12 _ _ Ht1) as (t2 & Ht2 & Hnum12 & Hid12 & Hr12).
      destruct (Ht23 _ _ Ht2) as (t3 & Ht3 & Hnum23 & Hid23 & Hr23).
      exists t3. split; [done|]. repeat split; try congruence. auto.
    + by etrans.
Qed.

Lemma store_le_insert st st' sid si si' :
  studies st !! sid = Some si → study_le si si' →
  studies st' = <[sid := si']> (studies st) →
  store_le st st'.
Proof.
  intros Hsi Hle Hst' sid0 si0 Hsi0. rewrite Hst'.
  destruct (decide (sid0 = sid)) as [->|Hne].
  - rewrite lookup_insert_eq. exists si'. split; [done|]. congruence.
  - rewrite lookup_insert_ne by done. exists si0. split; [done|].
    apply study_le_refl.
Qed.

Lemma store_le_insert_new st st' sid si' :
  studies st !! sid = None →
  studies st' = <[sid := si']> (studies st) →
  store_le st st'.
Proof.
  intros Hnone Hst' sid0 si0 Hsi0. rewrite Hst'.
  rewrite lookup_insert_ne by congruence.
  exists si0. split; [done|apply study_le_refl].
Qed.

Lemma fresh_study_id st : studies st !! fresh (dom (studies st)) = None.
Proof. apply not_elem_of_dom, is_fresh. Qed.

Lemma store_le_create_new_study name generated :
  stable store_le (BaseStorage.create_new_study name generated).
Proof.
  intros st. unfold BaseStorage.create_new_study.
  destruct name as [name|].
  - destruct (study_name_to_id st !! name); simpl; [reflexivity|].
    eapply store_le_insert_new; [apply fresh_study_id|done].
  - simpl. eapply store_le_insert_new; [apply fresh_study_id|done].
Qed.

Lemma store_le_set_marker sid :
  stable store_le (BaseStorage.set_study_system_attr sid
                     _SYSTEM_ATTR_PREFERENTIAL_STUDY (PyBool true)).
Proof.
  intros st. unfold BaseStorage.set_study_system_attr.
  destruct (studies st !! sid) as [si|] eqn:Hsi; simpl; [|reflexivity].
  eapply store_le_insert; [exact Hsi| |done].
  repeat split; simpl; try done.
  - intros _. unfold dict_get. by rewrite lookup_insert_eq.
  - intros i t Ht. exists t. split; [done|apply trial_le_refl].
Qed.

Lemma store_le_set_study_user_attr sid k v :
  stable store_le (BaseStorage.set_study_user_attr sid k v).
Proof.
  intros st. unfold BaseStorage.set_study_user_attr.
  destruct (studies st !! sid) as [si|] eqn:Hsi; simpl; [|reflexivity].
  eapply store_le_insert; [exact Hsi| |done].
  repeat split; simpl; try done.
  intros i t Ht. exists t. split; [done|apply trial_le_refl].
Qed.

Lemma store_le_create_new_trial sid tpl :
  stable store_le (BaseStorage.create_new_trial sid tpl).
Proof.
  intros st. unfold BaseStorage.create_new_trial.
  destruct (studies st !! sid) as [si|] eqn:Hsi; simpl; [|reflexivity].
  eapply store_le_insert; [exact Hsi| |done].
  repeat split; simpl; try done.
  intros i t Ht. exists t. split; [|apply trial_le_refl].
  by apply lookup_app_l_Some.
Qed.

Lemma store_le_report_preferences sid ps :
  stable store_le (_system_attrs.report_preferences sid ps).
Proof.
  intros st. unfold _system_attrs.report_preferences.
  destruct (studies st !! sid) as [si|] eqn:Hsi; simpl; [|reflexivity].
  eapply store_le_insert; [exact Hsi| |done].
  repeat split; simpl; try done.
  - intros i t Ht. exists t. split; [done|apply trial_le_refl].
  - by apply prefix_app_r.
Qed.

Lemma store_le_mark_all tid st : store_le st (mark_all tid st).
Proof.
  intros sid si Hsi. exists (with_trials (fmap (mark tid)) si).
  rewrite lookup_mark_all, Hsi. split; [done|].
  repeat split; simpl; try done.
  intros i t Ht. exists (mark tid t). rewrite list_lookup_fmap, Ht.
  split; [done|]. repeat split.
  - apply mark_number.
  - apply mark_trial_id.
  - apply mark_ready_mono.
Qed.

Lemma store_le_pop_waiting study :
  stable store_le (optuna._pop_waiting_trial_id study).
Proof.
  intros st. unfold optuna._pop_waiting_trial_id.
  destruct (studies st !! _study_id study) as [si0|]; [|simpl; reflexivity].
  destruct (list_find _ (trials si0)) as [[i0 t0]|]; [|simpl; reflexivity].
  cbn [fst]. intros sid si Hsi.
  exists (with_trials (fmap (BaseStorage.start_trial (trial_id t0))) si).
  rewrite lookup_with_studies_fmap, Hsi. split; [done|].
  repeat split; simpl; try done.
  intros i t Ht. exists (BaseStorage.start_trial (trial_id t0) t).
  rewrite list_lookup_fmap, Ht. split; [done|]. repeat split.
  - apply start_number.
  - apply start_trial_id.
  - unfold ready. by rewrite start_system_attrs.
Qed.

Lemma store_le_set_ready tid :
  stable store_le (BaseStorage.set_trial_system_attr tid
                     _SYSTEM_ATTR_COMPARISON_READY (PyBool true)).
Proof.
  intros st. destruct (set_ready_store tid st) as [-> | ->];
    [reflexivity|apply store_le_mark_all].
Qed.

(** Whatever calls are made, the store only grows. *)
Lemma steps_store_le st st' : rtc core_step st st' → store_le st st'.
Proof.
  apply (stable_steps store_le).
  - apply store_le_create_new_study.
  - apply store_le_set_marker.
  - apply store_le_set_study_user_attr.
  - apply store_le_create_new_trial.
  - apply store_le_pop_waiting.
  - apply store_le_report_preferences.
  - apply store_le_set_ready.
Qed.

Lemma ready_mono st st' sid si (i : nat) t :
  store_le st st' →
  studies st !! sid = Some si → trials si !! i = Some t → ready t →
  ∃ si' t', studies st' !! sid = Some si' ∧ trials si' !! i = Some t' ∧
            number t' = number t ∧ trial_id t' = trial_id t ∧ ready t'.
Proof.
  intros Hle Hsi Hi Hr.
  destruct (Hle _ _ Hsi) as (si' & Hsi' & _ & _ & Htr & _).
  destruct (Htr _ _ Hi) as (t' & Hi' & Hnum & Hid & Hr').
  exists si', t'. auto 10.
Qed.

Lemma preferential_mono st st' sid :
  store_le st st' → preferential st sid → preferential st' sid.
Proof.
  intros Hle (si & Hsi & Hm).
  destruct (Hle _ _ Hsi) as (si' & Hsi' & _ & Hm' & _).
  exists si'. auto.
Qed.

(** C7, as amended.  Calling [mark_comparison_ready] a second time with
    the same identifier gives the outcome and the store of the first call;
    on a trial that is already ready the call leaves the store as it was,
    returning when the trial has not finished and letting out the store's
    [RuntimeError] when it has; and a trial that is ready is, after every
    sequence of calls of the package, still in its study at its position,
    with its number and id, and ready. *)
Theorem mark_comparison_ready_idempotent_monotone :
  (∀ self x st,
     PreferentialStudy.mark_comparison_ready self x
       (PreferentialStudy.mark_comparison_ready self x st).1
     = PreferentialStudy.mark_comparison_ready self x st) ∧
  (∀ self x tid st,
     designates self x tid st →
     (∀ sid si t, studies st !! sid = Some si → t ∈ trials si →
                  trial_id t = tid → ready t) →
     (PreferentialStudy.mark_comparison_ready self x st).1 = st ∧
     (¬ finished st tid →
      PreferentialStudy.mark_comparison_ready self x st = (st, Return tt)) ∧
     (finished st tid →
      ∃ msg, PreferentialStudy.mark_comparison_ready self x st
             = (st, Raise (RuntimeError msg)))) ∧
  (∀ st st' sid si (i : nat) t,
     rtc core_step st st' →
     studies st !! sid = Some si → trials si !! i = Some t → ready t →
     ∃ si' t', studies st' !! sid = Some si' ∧ trials si' !! i = Some t' ∧
               number t' = number t ∧ trial_id t' = trial_id t ∧ ready t').
Proof.
  split; [|split].
  - apply mark_comparison_ready_twice.
  - intros self x tid st Hx Hready. split; [|split].
    + rewrite (mark_comparison_ready_set _ _ _ _ Hx).
      destruct (set_ready_store tid st) as [-> | ->]; [done|].
      by apply mark_all_already.
    + intros Hnot. rewrite (mark_comparison_ready_designated _ _ _ _ Hx Hnot).
      by rewrite mark_all_already.
    + intros Hfin. eexists. by apply mark_comparison_ready_finished.
  - intros st st' sid si i t Hsteps. apply ready_mono.
    by apply steps_store_le.
Qed.

Lemma create_new_study_cases name generated st :
  BaseStorage.create_new_study name generated st =
    match name with
    | Some n =>
        match study_name_to_id st !! n with
        | Some _ => (st, Raise DuplicatedStudyError)
        | None => (new_study_store st n, Return (fresh (dom (studies st))))
        end
    | None => (new_study_store st generated, Return (fresh (dom (studies st))))
    end.
Proof. done. Qed.

(** ** Trial numbers stay dense *)

#[global] Instance keeps_dense_preorder : PreOrder keeps_dense.
Proof. split; unfold keeps_dense; [intros st|intros st1 st2 st3]; auto. Qed.

Lemma all_dense_insert st st' sid si' :
  studies st' = <[sid := si']> (studies st) → dense si' → keeps_dense st st'.
Proof.
  intros Hst' Hdense Hall sid0 si0. rewrite Hst'.
  destruct (decide (sid0 = sid)) as [->|Hne].
  - rewrite lookup_insert_eq. by intros [= <-].
  - rewrite lookup_insert_ne by done. apply Hall.
Qed.

Lemma all_dense_update st st' sid si si' :
  studies st !! sid = Some si →
  studies st' = <[sid := si']> (studies st) → trials si' = trials si →
  keeps_dense st st'.
Proof.
  intros Hsi Hst' Htr Hall. eapply all_dense_insert; [done| |done].
  unfold dense. rewrite Htr. by apply (Hall sid).
Qed.

Lemma keeps_dense_create_new_study name generated :
  stable keeps_dense (BaseStorage.create_new_study name generated).
Proof.
  intros st. rewrite create_new_study_cases.
  destruct name as [name|]; [destruct (study_name_to_id st !! name)|]; simpl;
    try reflexivity;
    (eapply all_dense_insert; [done|]); by intros i t Ht.
Qed.

Lemma keeps_dense_set_study_system_attr sid k v :
  stable keeps_dense (BaseStorage.set_study_system_attr sid k v).
Proof.
  intros st. unfold BaseStorage.set_study_system_attr.
  destruct (studies st !! sid) as [si|] eqn:Hsi; simpl; [|reflexivity].
  by eapply all_dense_update.
Qed.

Lemma keeps_dense_set_study_user_attr sid k v :
  stable keeps_dense (BaseStorage.set_study_user_attr sid k v).
Proof.
  intros st. unfold BaseStorage.set_study_user_attr.
  destruct (studies st !! sid) as [si|] eqn:Hsi; simpl; [|reflexivity].
  by eapply all_dense_update.
Qed.

Lemma keeps_dense_report_preferences sid ps :
  stable keeps_dense (_system_attrs.report_preferences sid ps).
Proof.
  intros st. unfold _system_attrs.report_preferences.
  destruct (studies st !! sid) as [si|] eqn:Hsi; simpl; [|reflexivity].
  by eapply all_dense_update.
Qed.

Lemma keeps_dense_create_new_trial sid tpl :
  stable keeps_dense (BaseStorage.create_new_trial sid tpl).
Proof.
  intros st. unfold BaseStorage.create_new_trial.
  destruct (studies st !! sid) as [si|] eqn:Hsi; simpl; [|reflexivity].
  intros Hall. eapply all_dense_insert; [done| |done].
  intros i t. simpl. intros [Hi|[Hlen Hi]]%lookup_app_Some.
  - by apply (Hall sid si).
  - destruct (i - length (trials si))%nat as [|k] eqn:Hk; [|done].
    simpl in Hi. injection Hi as <-.
    replace i with (length (trials si)) by lia. by destruct tpl.
Qed.

Lemma keeps_dense_pop_waiting study :
  stable keeps_dense (optuna._pop_waiting_trial_id study).
Proof.
  intros st. unfold optuna._pop_waiting_trial_id.
  destruct (studies st !! _study_id study) as [si0|]; [|simpl; reflexivity].
  destruct (list_find _ (trials si0)) as [[i0 t0]|]; [|simpl; reflexivity].
  cbn [fst]. intros Hall sid si. rewrite lookup_with_studies_fmap.
  destruct (studies st !! sid) as [si1|] eqn:Hsi1; [|done].
  intros [= <-] i t. simpl. rewrite list_lookup_fmap.
  destruct (trials si1 !! i) as [t1|] eqn:Hi; [|done].
  intros [= <-]. rewrite start_number. by apply (Hall sid si1).
Qed.

Lemma keeps_dense_set_ready tid :
  stable keeps_dense (BaseStorage.set_trial_system_attr tid
                        _SYSTEM_ATTR_COMPARISON_READY (PyBool true)).
Proof.
  intros st. destruct (set_ready_store tid st) as [-> | ->]; [reflexivity|].
  intros Hall sid si. rewrite lookup_mark_all.
  destruct (studies st !! sid) as [si0|] eqn:Hsi0; [|done].
  intros [= <-] i t. simpl. rewrite list_lookup_fmap.
  destruct (trials si0 !! i) as [t0|] eqn:Hi; [|done].
  intros [= <-]. rewrite mark_number. by apply (Hall sid si0).
Qed.

(** Every store built from an empty one by calls of the package numbers
    the trials of each study by position. *)
Lemma reachable_dense st : rtc core_step empty_storage st → all_dense st.
Proof.
  intros Hsteps. apply (stable_steps keeps_dense) in Hsteps.
  - apply Hsteps. by intros sid si.
  - apply keeps_dense_create_new_study.
  - intros sid. apply keeps_dense_set_study_system_attr.
  - apply keeps_dense_set_study_user_attr.
  - apply keeps_dense_create_new_trial.
  - apply keeps_dense_pop_waiting.
  - apply keeps_dense_report_preferences.
  - apply keeps_dense_set_ready.
Qed.

(** ** Creating and loading studies *)

Lemma load_study_store name st : (load_study name st).1 = st.
Proof. symmetry. apply (stable_load_study eq). Qed.

Lemma load_study_resolved name st study si :
  optuna.load_study name st = (st, Return study) →
  studies st !! _study_id study = Some si →
  load_study name st =
    if truthy (dict_get (study_system_attrs si) _SYSTEM_ATTR_PREFERENTIAL_STUDY)
    then (st, Return (mkPreferentialStudy study))
    else (st, Raise (ValueError "The study is not a PreferentialStudy.")).
Proof.
  intros Hload Hsi. unfold load_study, bind. rewrite Hload.
  unfold query, BaseStorage.get_study_system_attrs. rewrite Hsi.
  by destruct (truthy _).
Qed.

Lemma load_study_named n st sid :
  study_name_to_id st !! n = Some sid →
  optuna.load_study (Some n) st = (st, Return (mkStudy sid)).
Proof.
  intros Hn. unfold optuna.load_study, bind, ret, query,
    BaseStorage.get_study_id_from_name.
  by rewrite Hn.
Qed.

Lemma load_study_returns name st st' ps :
  load_study name st = (st', Return ps) →
  st' = st ∧ preferential st (_study_id (_study ps)).
Proof.
  intros Hload. pose proof (load_study_store name st) as Hst.
  rewrite Hload in Hst. simpl in Hst. subst st'. split; [done|].
  revert Hload. unfold load_study, bind.
  destruct (optuna.load_study name st) as [st1 [study|e]]; [|done].
  unfold query, BaseStorage.get_study_system_attrs.
  destruct (studies st1 !! _study_id study) as [si|] eqn:Hsi; [|done].
  destruct (truthy _) eqn:Htruthy; simpl; [|done].
  intros [= -> <-]. by exists si.
Qed.

Lemma preferential_loads n st sid :
  study_name_to_id st !! n = Some sid → preferential st sid →
  load_study (Some n) st = (st, Return (mkPreferentialStudy (mkStudy sid))).
Proof.
  intros Hn (si & Hsi & Hm).
  rewrite (load_study_resolved _ _ _ si (load_study_named _ _ _ Hn) Hsi).
  by rewrite Hm.
Qed.

Lemma create_study_new storage name lie generated n :
  let st := default empty_storage storage in
  (name = Some n ∧ study_name_to_id st !! n = None) ∨
  (name = None ∧ n = generated) →
  create_study storage name lie generated =
    (marked_study_store st n,
     Return (mkPreferentialStudy (mkStudy (fresh (dom (studies st)))))).
Proof.
  intros st Hname.
  unfold create_study, try_except_duplicated, optuna.create_study, bind, ret, raise.
  cbv beta. rewrite create_new_study_cases. fold st.
  assert (Hset :
    BaseStorage.set_study_system_attr (fresh (dom (studies st)))
      _SYSTEM_ATTR_PREFERENTIAL_STUDY (PyBool true) (new_study_store st n)
    = (marked_study_store st n, Return tt)).
  { unfold BaseStorage.set_study_system_attr, new_study_store. simpl.
    by rewrite lookup_insert_eq. }
  destruct Hname as [[-> Hn]|[-> ->]].
  - rewrite Hn. simpl. by rewrite Hset.
  - simpl. by rewrite Hset.
Qed.

Lemma create_study_duplicated storage n lie generated sid :
  let st := default empty_storage storage in
  study_name_to_id st !! n = Some sid →
  create_study storage (Some n) lie generated =
    if lie then
      match storage with
      | Some _ => load_study (Some n) st
      | None => (st, Raise AssertionError)
      end
    else (st, Raise DuplicatedStudyError).
Proof.
  intros st Hn.
  unfold create_study, try_except_duplicated, optuna.create_study, bind, ret, raise.
  cbv beta. rewrite create_new_study_cases. fold st. rewrite Hn.
  destruct lie; [|done]. by destruct storage.
Qed.

Lemma create_study_loads_existing st n generated sid :
  study_name_to_id st !! n = Some sid →
  create_study (Some st) (Some n) true generated = load_study (Some n) st.
Proof. intros Hn. exact (create_study_duplicated (Some st) n true generated sid Hn). Qed.

Lemma marked_study_store_preferential st n :
  study_name_to_id (marked_study_store st n) !! n = Some (fresh (dom (studies st))) ∧
  preferential (marked_study_store st n) (fresh (dom (studies st))).
Proof.
  unfold marked_study_store, new_study_store. simpl.
  split; [apply lookup_insert_eq|].
  eexists. simpl. rewrite lookup_insert_eq. split; [reflexivity|].
  simpl. unfold dict_get. by rewrite lookup_insert_eq.
Qed.

Lemma create_study_returns storage name lie generated st' ps :
  create_study storage name lie generated = (st', Return ps) →
  preferential st' (_study_id (_study ps)) ∧
  load_study (Some (default generated name)) st' = (st', Return ps).
Proof.
  set (st := default empty_storage storage).
  assert (Hnew : ∀ n,
    (name = Some n ∧ study_name_to_id st !! n = None) ∨ (name = None ∧ n = generated) →
    create_study storage name lie generated = (st', Return ps) →
    preferential st' (_study_id (_study ps)) ∧ load_study (Some n) st' = (st', Return ps)).
  { intros n Hn. rewrite (create_study_new _ _ _ _ n Hn). intros [= <- <-].
    destruct (marked_study_store_preferential st n) as [Hname Hpref].
    split; [done|]. by apply preferential_loads. }
  destruct name as [n|]; simpl.
  - destruct (study_name_to_id st !! n) as [sid|] eqn:Hn.
    + rewrite (create_study_duplicated _ _ _ _ sid Hn).
      destruct lie; [|done]. destruct storage as [st0|]; [|done].
      intros Hload. by pose proof (load_study_returns _ _ _ _ Hload) as [-> Hpref].
    + apply Hnew. auto.
  - apply Hnew. auto.
Qed.

(** C5.  [load_study] raises the domain-mismatch error on every study
    that the store finds and whose system attributes hold no truthy
    preferential marker.  A study that [create_study] returned can be
    loaded under its name right away, and its marker is still there after
    every sequence of calls of the package, so that it can be loaded as
    long as its name designates it. *)
Theorem load_study_checks_marker :
  (∀ name st study si,
     optuna.load_study name st = (st, Return study) →
     studies st !! _study_id study = Some si →
     truthy (dict_get (study_system_attrs si) _SYSTEM_ATTR_PREFERENTIAL_STUDY) = false →
     load_study name st
       = (st, Raise (ValueError "The study is not a PreferentialStudy."))) ∧
  (∀ storage name lie generated st' ps,
     create_study storage name lie generated = (st', Return ps) →
     load_study (Some (default generated name)) st' = (st', Return ps) ∧
     ∀ st'', rtc core_step st' st'' →
       preferential st'' (_study_id (_study ps)) ∧
       (study_name_to_id st'' !! default generated name
          = Some (_study_id (_study ps)) →
        load_study (Some (default generated name)) st'' = (st'', Return ps))).
Proof.
  split.
  - intros name st study si Hload Hsi Hm.
    rewrite (load_study_resolved _ _ _ _ Hload Hsi). by rewrite Hm.
  - intros storage name lie generated st' ps Hcreate.
    destruct (create_study_returns _ _ _ _ _ _ Hcreate) as [Hpref Hload].
    split; [done|]. intros st'' Hsteps.
    assert (Hpref'' : preferential st'' (_study_id (_study ps))).
    { eapply preferential_mono; [by apply steps_store_le|done]. }
    split; [done|]. intros Hname.
    rewrite (preferential_loads _ _ _ Hname Hpref''). by destruct ps as [[?]].
Qed.

(** C9.  With [load_if_exists=True] and a name that is taken by a study
    without a truthy preferential marker, [create_study] raises the
    domain-mismatch error and returns no study.  Every study that
    [create_study] or [load_study] returns carries a truthy marker in the
    store the call leaves. *)
Theorem create_study_fallback_checks_marker :
  (∀ st name generated sid si,
     study_name_to_id st !! name = Some sid →
     studies st !! sid = Some si →
     truthy (dict_get (study_system_attrs si) _SYSTEM_ATTR_PREFERENTIAL_STUDY) = false →
     create_study (Some st) (Some name) true generated
       = (st, Raise (ValueError "The study is not a PreferentialStudy."))) ∧
  (∀ storage name lie generated st' ps,
     create_study storage name lie generated = (st', Return ps) →
     preferential st' (_study_id (_study ps))) ∧
  (∀ name st st' ps,
     load_study name st = (st', Return ps) →
     preferential st' (_study_id (_study ps))).
Proof.
  split; [|split].
  - intros st name generated sid si Hname Hsi Hm.
    rewrite (create_study_loads_existing _ _ _ sid Hname).
    rewrite (load_study_resolved _ _ _ si (load_study_named _ _ _ Hname) Hsi).
    by rewrite Hm.
  - intros storage name lie generated st' ps Hcreate.
    by destruct (create_study_returns _ _ _ _ _ _ Hcreate).
  - intros name st st' ps Hload.
    by destruct (load_study_returns _ _ _ _ Hload) as [-> ?].
Qed.

(** ** Worked examples on the example stores *)

Lemma dense_example_study : dense example_study.
Proof.
  intros i t. unfold example_study, trials.
  do 6 (destruct i as [|i]; [by intros [= <-]|]). done.
Qed.

Lemma ledger_references si :
  Forall (λ p, has_number si p.1 ∧ has_number si p.2) (preferences si) →
  ∀ b w, (b, w) ∈ preferences si → has_number si b ∧ has_number si w.
Proof. intros HF b w Hin. by apply (proj1 (Forall_forall _ _) HF (b, w)). Qed.


Lemma all_ready st tid :
  map_Forall (λ _ si, Forall (λ t, trial_id t = tid → ready t) (trials si))
             (studies st) →
  ∀ sid si t, studies st !! sid = Some si → t ∈ trials si →
              trial_id t = tid → ready t.
Proof.
  intros HF sid si t Hsi Ht. specialize (HF sid si Hsi).
  by apply (proj1 (Forall_forall _ _) HF).
Qed.

Example scenario_three_trials :
  match scenario empty_storage with
  | (st, Return (self, t0, t1, t2)) =>
      number t0 = 0 ∧ number t1 = 1 ∧ number t2 = 2 ∧
      PreferentialStudy.best_trials self st = (st, Return [t0]) ∧
      PreferentialStudy.get_preferences self true st
        = (st, Return [(t0, t1); (t0, t2)])
  | (_, Raise _) => False
  end.
Proof. vm_compute. repeat split; reflexivity. Qed.

(** A statement about a number that is no position of the trial list
    makes [get_preferences] raise, and a negative number counts from the
    end of the list. *)
Example get_preferences_dangling_reference :
  (let! _ := PreferentialStudy.report_preference example_self
               (OneTrial (example_trial 9 COMPLETE ∅))
               (OneTrial (example_trial 0 COMPLETE ∅)) in
   PreferentialStudy.get_preferences example_self true) example_store
    = ((PreferentialStudy.report_preference example_self
          (OneTrial (example_trial 9 COMPLETE ∅))
          (OneTrial (example_trial 0 COMPLETE ∅)) example_store).1,
       Raise IndexError) ∧
  py_index (trials example_study) (-1)
    = Return (example_trial 5 RUNNING (flag (PyStr "yes"))).
Proof. split; vm_compute; reflexivity. Qed.

(** An integer that is no trial number of the study is the store's
    [KeyError] and changes nothing; [True] is the integer 1. *)
Example mark_comparison_ready_integers :
  PreferentialStudy.mark_comparison_ready example_self (ObjValue (PyInt 6)) example_store
    = (example_store, Raise KeyError) ∧
  PreferentialStudy.mark_comparison_ready example_self (ObjValue (PyBool true)) example_store
    = PreferentialStudy.mark_comparison_ready example_self (ObjValue (PyInt 1)) example_store.
Proof. split; vm_compute; reflexivity. Qed.

Lemma get_best_trials_is_frontier_witness :
  studies example_store !! 0 = Some example_study ∧
  get_best_trials 0 example_store
    = Return [example_trial 0 COMPLETE (flag (PyBool true))].
Proof.
  assert (H : studies example_store !! 0 = Some example_study)
    by (vm_compute; reflexivity).
  split; [exact H|].
  destruct (get_best_trials_is_frontier 0 example_store example_study H)
    as (best & -> & -> & _).
  vm_compute. reflexivity.
Defined.



Lemma cycle_excludes_both_witness :
  ∃ st',
    (let! _ := PreferentialStudy.report_preference example_self
                 (OneTrial (example_trial 0 COMPLETE ∅))
                 (OneTrial (example_trial 4 FAIL ∅)) in
     PreferentialStudy.report_preference example_self
       (OneTrial (example_trial 4 FAIL ∅))
       (OneTrial (example_trial 0 COMPLETE ∅))) example_store
      = (st', Return tt) ∧
    get_best_trials 0 example_store
      = Return [example_trial 0 COMPLETE (flag (PyBool true))] ∧
    get_best_trials 0 st' = Return [].
Proof.
  assert (H : studies example_store !! _study_id (_study example_self)
              = Some example_study) by (vm_compute; reflexivity).
  destruct (cycle_excludes_both example_self (example_trial 0 COMPLETE ∅)
              (example_trial 4 FAIL ∅) example_store example_study H)
    as (st' & before & after & Hrun & Hbefore & Hafter & _ & _ & Hfilter).
  exists st'. split; [exact Hrun|].
  assert (Hb : before = [example_trial 0 COMPLETE (flag (PyBool true))]).
  { vm_compute in Hbefore. injection Hbefore as <-. vm_compute. reflexivity. }
  split.
  - simpl in Hbefore. rewrite Hbefore. by rewrite Hb.
  - simpl in Hafter. rewrite Hafter, Hfilter, Hb. vm_compute. reflexivity.
Defined.

Lemma load_study_checks_marker_witness :
  load_study (Some "plain"%string) example_store
    = (example_store, Raise (ValueError "The study is not a PreferentialStudy.")) ∧
  ∃ st' ps,
    create_study (Some example_store) (Some "new"%string) false "generated" = (st', Return ps) ∧
    load_study (Some "new"%string) st' = (st', Return ps) ∧
    preferential (run_op (Ask ps) st') (_study_id (_study ps)).
Proof.
  split.
  - apply (proj1 load_study_checks_marker (Some "plain"%string) example_store
             (mkStudy 1) plain_study); vm_compute; reflexivity.
  - destruct (create_study (Some example_store) (Some "new"%string) false "generated")
      as [st' [ps|e]] eqn:Hcreate; [|vm_compute in Hcreate; discriminate].
    destruct (proj2 load_study_checks_marker _ _ _ _ _ _ Hcreate) as [Hload Hlater].
    exists st', ps. split; [reflexivity|]. split; [exact Hload|].
    apply (Hlater (run_op (Ask ps) st')).
    apply rtc_once. by exists (Ask ps).
Defined.

Lemma not_finished st tid :
  ¬ BaseStorage.has_finished_trial tid st → ¬ finished st tid.
Proof. done. Qed.

Lemma none_ready st tid :
  map_Forall (λ _ si, Forall (λ t, trial_id t = tid → ¬ ready t) (trials si))
             (studies st) →
  ¬ comparison_ready st tid.
Proof.
  intros HF (sid & si & t & Hsi & Ht & Hid & Hr). specialize (HF sid si Hsi).
  by apply (proj1 (Forall_forall _ _) HF t).
Qed.

Lemma mark_comparison_ready_dispatch_witness :
  PreferentialStudy.mark_comparison_ready example_self (ObjValue (PyStr "3")) example_store
    = (example_store, Raise (RuntimeError "Unexpected trial type")) ∧
  (∃ st',
     PreferentialStudy.mark_comparison_ready example_self (ObjValue (PyInt 5)) example_store
       = (st', Return tt) ∧
     comparison_ready st' 15) ∧
  (∃ msg,
     PreferentialStudy.mark_comparison_ready example_self (ObjValue (PyInt 3)) example_store
       = (example_store, Raise (RuntimeError msg)) ∧
     msg ≠ "Unexpected trial type"%string).
Proof.
  destruct (mark_comparison_ready_dispatch example_self) as (Hbad & Hok & Hfin).
  split; [|split].
  - apply Hbad. reflexivity.
  - destruct (Hok (ObjValue (PyInt 5)) 15 example_store) as (st' & Hrun & Hready & _).
    + exists 5. split; [reflexivity|]. vm_compute. reflexivity.
    + apply not_finished. apply (bool_decide_unpack _). vm_compute. exact I.
    + exists st'. split; [exact Hrun|exact Hready].
  - apply (Hfin (ObjValue (PyInt 3)) 13 example_store).
    + exists 3. split; [reflexivity|]. vm_compute. reflexivity.
    + apply (bool_decide_unpack _). vm_compute. exact I.
Defined.

(** Handed the number of a trial that has finished and is not ready,
    [mark_comparison_ready] resolves the trial id and raises: the flag is
    not set. *)
Lemma mark_comparison_ready_dispatch_counterexample :
  designates example_self (ObjValue (PyInt 3)) 13 example_store ∧
  PreferentialStudy.mark_comparison_ready example_self (ObjValue (PyInt 3)) example_store
    = (example_store,
       Raise (RuntimeError "Trial#3 has already finished and can not be updated.")) ∧
  ¬ comparison_ready example_store 13.
Proof.
  split; [|split].
  - exists 3. split; [reflexivity|]. vm_compute. reflexivity.
  - vm_compute. reflexivity.
  - apply none_ready. apply (bool_decide_unpack _). vm_compute. exact I.
Qed.

Lemma mark_comparison_ready_idempotent_monotone_witness :
  PreferentialStudy.mark_comparison_ready example_self (ObjTrial (mkTrial 11)) example_store
    = (example_store, Return tt) ∧
  (PreferentialStudy.mark_comparison_ready example_self (ObjTrial (mkTrial 10))
     example_store).1 = example_store ∧
  ∃ si' t',
    studies (run_op (ReportPreference example_self
                       (OneTrial (example_trial 1 RUNNING ∅))
                       (OneTrial (example_trial 0 COMPLETE ∅)))
               (run_op (Ask example_self) example_store)) !! 0 = Some si' ∧
    trials si' !! 0%nat = Some t' ∧ number t' = 0 ∧ trial_id t' = 10 ∧ ready t'.
Proof.
  destruct mark_comparison_ready_idempotent_monotone as (_ & Halready & Hmono).
  split; [|split].
  - destruct (Halready example_self (ObjTrial (mkTrial 11)) 11 example_store)
      as (_ & Hreturns & _).
    + split; [reflexivity|]. apply (bool_decide_unpack _). vm_compute. exact I.
    + apply all_ready. apply (bool_decide_unpack _). vm_compute. exact I.
    + apply Hreturns. apply not_finished.
      apply (bool_decide_unpack _). vm_compute. exact I.
  - destruct (Halready example_self (ObjTrial (mkTrial 10)) 10 example_store)
      as (Hstore & _).
    + split; [reflexivity|]. apply (bool_decide_unpack _). vm_compute. exact I.
    + apply all_ready. apply (bool_decide_unpack _). vm_compute. exact I.
    + exact Hstore.
  - apply (Hmono example_store _ 0 example_study 0%nat
             (example_trial 0 COMPLETE (flag (PyBool true)))).
    + eapply rtc_l; [by exists (Ask example_self)|].
      apply rtc_once. by eexists (ReportPreference _ _ _).
    + vm_compute. reflexivity.
    + reflexivity.
    + vm_compute. reflexivity.
Defined.

(** Handed the handle of a trial that is ready and has finished,
    [mark_comparison_ready] raises instead of returning. *)
Lemma mark_comparison_ready_idempotent_monotone_counterexample :
  designates example_self (ObjTrial (mkTrial 10)) 10 example_store ∧
  (∀ sid si t, studies example_store !! sid = Some si → t ∈ trials si →
               trial_id t = 10 → ready t) ∧
  PreferentialStudy.mark_comparison_ready example_self (ObjTrial (mkTrial 10)) example_store
    = (example_store,
       Raise (RuntimeError "Trial#0 has already finished and can not be updated.")) ∧
  PreferentialStudy.mark_comparison_ready example_self (ObjTrial (mkTrial 10)) example_store
    ≠ (example_store, Return tt).
Proof.
  split; [|split; [|split]].
  - split; [reflexivity|]. apply (bool_decide_unpack _). vm_compute. exact I.
  - apply all_ready. apply (bool_decide_unpack _). vm_compute. exact I.
  - vm_compute. reflexivity.
  - vm_compute. discriminate.
Qed.

Lemma get_preferences_resolves_by_number_witness :
  ∃ resolved,
    PreferentialStudy.get_preferences example_self false example_store
      = (example_store, Return resolved) ∧
    Forall2 (resolves example_study) [(0, 1); (1, 3); (0, 1)] resolved.
Proof.
  apply (proj1 get_preferences_resolves_by_number example_self false example_store
           example_study).
  - vm_compute. reflexivity.
  - exact dense_example_study.
  - apply ledger_references. apply (bool_decide_unpack _). vm_compute. exact I.
Defined.

Lemma create_study_fallback_checks_marker_witness :
  create_study (Some example_store) (Some "plain"%string) true "generated"
    = (example_store, Raise (ValueError "The study is not a PreferentialStudy.")) ∧
  create_study (Some example_store) (Some "s"%string) true "generated"
    = (example_store, Return example_self) ∧
  preferential example_store 0.
Proof.
  destruct create_study_fallback_checks_marker as (Hraise & Hcreate & _).
  split; [|split].
  - apply (Hraise example_store "plain"%string "generated"%string 1 plain_study);
      vm_compute; reflexivity.
  - vm_compute. reflexivity.
  - apply (Hcreate (Some example_store) (Some "s"%string) true "generated"%string
             example_store example_self).
    vm_compute. reflexivity.
Defined.

Lemma get_best_trials_requires_exactly_True_witness :
  ∃ best,
    get_best_trials 0 example_store = Return best ∧
    (example_trial 2 COMPLETE (flag (PyInt 1)) ∉ best) ∧
    (example_trial 3 COMPLETE ∅ ∉ best) ∧
    (example_trial 5 RUNNING (flag (PyStr "yes")) ∉ best).
Proof.
  destruct (get_best_trials_requires_exactly_True 0 example_store example_study)
    as (best & Hbest & _ & Habsent & Hother); [vm_compute; reflexivity|].
  exists best. split; [exact Hbest|]. split; [|split].
  - apply (Hother _ (PyInt 1)); [vm_compute; reflexivity|discriminate].
  - apply Habsent. vm_compute. reflexivity.
  - apply (Hother _ (PyStr "yes")); [vm_compute; reflexivity|discriminate].
Defined.

(** * Further properties of the code *)

(** ** Loading and creating, case by case *)

Lemma optuna_load_study_outcome name st :
  (optuna.load_study name st).1 = st ∧
  match (optuna.load_study name st).2 with
  | Return _ | Raise (ValueError _) | Raise KeyError => True
  | Raise _ => False
  end.
Proof.
  unfold optuna.load_study, bind, ret, query, BaseStorage.get_study_id_from_name.
  destruct name as [n|].
  - destruct (study_name_to_id st !! n); by simpl.
  - destruct (BaseStorage.get_all_study_names st) as [|n [|]]; simpl; try done.
    destruct (study_name_to_id st !! n); by simpl.
Qed.

Lemma load_study_outcome name st :
  (load_study name st).1 = st ∧
  match (load_study name st).2 with
  | Return ps => preferential st (_study_id (_study ps))
  | Raise (ValueError _) | Raise KeyError => True
  | Raise _ => False
  end.
Proof.
  split; [apply load_study_store|].
  destruct (load_study name st) as [st' [ps|e]] eqn:Hload; simpl.
  - by destruct (load_study_returns _ _ _ _ Hload).
  - revert Hload. unfold load_study, bind.
    pose proof (optuna_load_study_outcome name st) as [_ Hout].
    destruct (optuna.load_study name st) as [st1 [study|e1]]; simpl in *.
    + unfold query, BaseStorage.get_study_system_attrs.
      destruct (studies st1 !! _study_id study) as [si|]; [|by intros [= _ <-]].
      destruct (truthy _); simpl; [done|by intros [= _ <-]].
    + by intros [= _ <-].
Qed.

(** X16.  [load_study] never changes the store.  It returns only studies
    with a truthy preferential marker, and the only exceptions it lets out
    are [ValueError] and the store's [KeyError]. *)
Theorem load_study_reads_only name st :
  (load_study name st).1 = st ∧
  ((∃ ps, (load_study name st).2 = Return ps ∧
          preferential st (_study_id (_study ps))) ∨
   (∃ msg, (load_study name st).2 = Raise (ValueError msg)) ∨
   (load_study name st).2 = Raise KeyError).
Proof.
  destruct (load_study_outcome name st) as [Hst Hout]. split; [done|].
  destruct ((load_study name st).2) as [ps|[]]; try done; eauto.
Qed.

(** X1.  On a name that is taken, [create_study] leaves the store as it
    was: without [load_if_exists] it raises [DuplicatedStudyError], with it
    the call is the [load_study] of that name. *)
Theorem create_study_taken_name st n lie generated sid :
  study_name_to_id st !! n = Some sid →
  (create_study (Some st) (Some n) lie generated).1 = st ∧
  (lie = false →
   create_study (Some st) (Some n) lie generated = (st, Raise DuplicatedStudyError)) ∧
  (lie = true →
   create_study (Some st) (Some n) lie generated = load_study (Some n) st).
Proof.
  intros Hn.
  pose proof (create_study_duplicated (Some st) n lie generated sid Hn) as Heq.
  simpl in Heq. rewrite Heq. destruct lie; simpl.
  - split; [apply load_study_store|]. by split.
  - by repeat split.
Qed.

Lemma create_study_taken_name_witness :
  create_study (Some example_store) (Some "s"%string) false "generated"
    = (example_store, Raise DuplicatedStudyError) ∧
  (create_study (Some example_store) (Some "plain"%string) true "generated").1
    = example_store.
Proof.
  split.
  - apply (create_study_taken_name example_store "s"%string false "generated"%string 0);
      reflexivity.
  - apply (create_study_taken_name example_store "plain"%string true "generated"%string 1).
    reflexivity.
Defined.

(** X2.  The two assertions of the fallback never fail: [create_study]
    raises no [AssertionError], whatever it is called with. *)
Theorem create_study_never_asserts storage name lie generated :
  (create_study storage name lie generated).2 ≠ Raise AssertionError.
Proof.
  set (st := default empty_storage storage).
  destruct name as [n|].
  - destruct (study_name_to_id st !! n) as [sid|] eqn:Hn.
    + rewrite (create_study_duplicated _ _ _ _ sid Hn).
      destruct lie; [|done]. destruct storage as [st0|].
      * pose proof (load_study_outcome (Some n) st0) as [_ Hout]. simpl in *.
        intros Heq. fold st in Heq. unfold st in Heq. simpl in Heq.
        by rewrite Heq in Hout.
      * unfold st in Hn. simpl in Hn. by rewrite lookup_empty in Hn.
    + by rewrite (create_study_new storage (Some n) lie generated n) by auto.
  - by rewrite (create_study_new storage None lie generated generated) by auto.
Qed.

(** ** A new study *)

(** X3.  On a name that is free, or without a name, [create_study] returns
    a study under an id the store did not use, leaves every other study as
    it was, and the new study has the name, no trials, an empty frontier,
    no preferences and no user attributes. *)
Theorem create_study_new_study_is_empty storage name lie generated n :
  (name = Some n ∧ study_name_to_id (default empty_storage storage) !! n = None) ∨
  (name = None ∧ n = generated) →
  ∃ st' ps,
    create_study storage name lie generated = (st', Return ps) ∧
    studies (default empty_storage storage) !! _study_id (_study ps) = None ∧
    (∀ sid, sid ≠ _study_id (_study ps) →
            studies st' !! sid = studies (default empty_storage storage) !! sid) ∧
    PreferentialStudy.study_name ps st' = (st', Return n) ∧
    PreferentialStudy.trials ps st' = (st', Return []) ∧
    PreferentialStudy.best_trials ps st' = (st', Return []) ∧
    PreferentialStudy.preferences ps st' = (st', Return []) ∧
    PreferentialStudy.user_attrs ps st' = (st', Return ∅).
Proof.
  intros Hn. rewrite (create_study_new storage name lie generated n Hn).
  set (st := default empty_storage storage).
  do 2 eexists. split; [reflexivity|]. simpl.
  split; [apply fresh_study_id|].
  split.
  { intros sid Hne. by rewrite !lookup_insert_ne. }
  unfold PreferentialStudy.study_name, optuna.study_name,
    PreferentialStudy.trials, PreferentialStudy.best_trials,
    PreferentialStudy.preferences, PreferentialStudy.get_preferences,
    PreferentialStudy.user_attrs, optuna.user_attrs,
    optuna.get_trials, query, bind, get_best_trials,
    BaseStorage.get_all_trials, _system_attrs.get_preferences.
  simpl. rewrite !lookup_insert_eq. simpl. by repeat split.
Qed.

Lemma create_study_new_study_is_empty_witness :
  ∃ st' ps,
    create_study (Some example_store) (Some "new"%string) false "generated"
      = (st', Return ps) ∧
    PreferentialStudy.trials ps st' = (st', Return []) ∧
    studies st' !! 0 = Some example_study.
Proof.
  destruct (create_study_new_study_is_empty (Some example_store) (Some "new"%string)
              false "generated"%string "new"%string)
    as (st' & ps & Hcreate & Hfresh & Hother & _ & Htrials & _).
  { left. split; [reflexivity|]. vm_compute. reflexivity. }
  exists st', ps. split; [exact Hcreate|]. split; [exact Htrials|].
  rewrite Hother; [vm_compute; reflexivity|].
  intros Heq. rewrite <- Heq in Hfresh. vm_compute in Hfresh. discriminate.
Defined.

(** ** Indexing the trial list *)

Lemma py_index_in_range {A} (l : list A) i :
  in_range (length l) i →
  ∃ x, py_index l i = Return x ∧ l !! wrapped (length l) i = Some x.
Proof.
  unfold in_range, wrapped, py_index. intros Hi. cbv zeta.
  destruct (decide (i < 0)) as [Hneg|Hpos].
  - rewrite decide_True by lia.
    replace (i mod Z.of_nat (length l)) with (i + Z.of_nat (length l)).
    + destruct (lookup_lt_is_Some_2 l (Z.to_nat (i + Z.of_nat (length l))))
        as [x Hx]; [lia|]. exists x. by rewrite Hx.
    + apply Z.mod_unique with (-1); lia.
  - rewrite decide_True by lia.
    rewrite Z.mod_small by lia.
    destruct (lookup_lt_is_Some_2 l (Z.to_nat i)) as [x Hx]; [lia|].
    exists x. by rewrite Hx.
Qed.

Lemma py_index_out_of_range {A} (l : list A) i :
  ¬ in_range (length l) i → py_index l i = Raise IndexError.
Proof.
  unfold in_range, py_index. intros Hi. cbv zeta.
  destruct (decide (i < 0)); by rewrite decide_False by lia.
Qed.

Lemma for_each_raises {A B} (f : A → outcome B) e l :
  (∀ x, x ∈ l → (∃ y, f x = Return y) ∨ f x = Raise e) →
  Exists (λ x, f x = Raise e) l →
  for_each f l = Raise e.
Proof.
  induction l as [|x l IH]; intros Hall Hex; [by apply Exists_nil in Hex|].
  simpl. destruct (Hall x) as [[y Hy]|Hx]; [apply elem_of_cons; auto| |by rewrite Hx].
  rewrite Hy. simpl. rewrite IH; [done| |].
  - intros x' Hx'. apply Hall, elem_of_cons. auto.
  - apply Exists_cons in Hex as [Hx|Hex]; [congruence|done].
Qed.

(** X4.  [get_preferences] indexes the trial list as Python does.  When
    every number of the Ledger is between [-n] and [n - 1], for [n] trials,
    it returns one pair per statement, the trials at the positions the
    numbers denote, a negative number counting from the end.  As soon as
    one number is outside, it raises [IndexError] and returns nothing. *)
Theorem get_preferences_index_semantics self deepcopy_flag st si :
  studies st !! _study_id (_study self) = Some si →
  (Forall (statement_in_range (length (trials si))) (preferences si) →
   ∃ resolved,
     PreferentialStudy.get_preferences self deepcopy_flag st = (st, Return resolved) ∧
     Forall2 (λ p q,
                trials si !! wrapped (length (trials si)) p.1 = Some q.1 ∧
                trials si !! wrapped (length (trials si)) p.2 = Some q.2)
             (preferences si) resolved) ∧
  (¬ Forall (statement_in_range (length (trials si))) (preferences si) →
   PreferentialStudy.get_preferences self deepcopy_flag st = (st, Raise IndexError)).
Proof.
  intros Hsi.
  unfold PreferentialStudy.get_preferences, bind, optuna.get_trials, query,
    BaseStorage.get_all_trials, _system_attrs.get_preferences.
  rewrite Hsi.
  replace (if deepcopy_flag then deepcopy <$> trials si else trials si)
    with (trials si) by (destruct deepcopy_flag; by rewrite ?fmap_deepcopy).
  split.
  - intros Hall.
    match goal with
    | |- context [for_each ?f ?l] =>
        destruct (for_each_Forall2 f
          (λ p q, trials si !! wrapped (length (trials si)) p.1 = Some q.1 ∧
                  trials si !! wrapped (length (trials si)) p.2 = Some q.2) l)
          as (resolved & Heq & HF)
    end.
    + intros p Hp. apply (proj1 (Forall_forall _ _) Hall) in Hp as [Hb Hw].
      destruct (py_index_in_range _ _ Hb) as (tb & Hib & Hlb).
      destruct (py_index_in_range _ _ Hw) as (tw & Hiw & Hlw).
      exists (tb, tw). by rewrite Hib, Hiw.
    + exists resolved. by rewrite Heq.
  - intros Hnot. apply not_Forall_Exists in Hnot; [|apply _].
    rewrite (for_each_raises _ IndexError); [done| |].
    + intros p _.
      destruct (decide (in_range (length (trials si)) p.1)) as [Hb|Hb].
      * destruct (py_index_in_range _ _ Hb) as (tb & -> & _). simpl.
        destruct (decide (in_range (length (trials si)) p.2)) as [Hw|Hw].
        -- destruct (py_index_in_range _ _ Hw) as (tw & -> & _). eauto.
        -- rewrite (py_index_out_of_range _ _ Hw). auto.
      * rewrite (py_index_out_of_range _ _ Hb). auto.
    + eapply Exists_impl; [exact Hnot|]. intros p Hp. simpl in Hp.
      destruct (decide (in_range (length (trials si)) p.1)) as [Hb|Hb].
      * destruct (py_index_in_range _ _ Hb) as (tb & -> & _). simpl.
        rewrite py_index_out_of_range; [done|]. intros Hw. by apply Hp.
      * by rewrite (py_index_out_of_range _ _ Hb).
Qed.

(** ** Reporting, once more *)

Lemma report_nothing sid st si :
  studies st !! sid = Some si →
  with_studies (insert sid (with_preferences (λ l, l ++ []) si)) st = st.
Proof.
  intros Hsi. destruct st as [ss names mx], si as [nm sa ua ts ps].
  unfold with_studies, with_preferences. simpl in *.
  rewrite app_nil_r. by rewrite insert_id.
Qed.

Lemma flat_map_nil_inner {A B C} (f : A → B → C) (l : list A) :
  flat_map (λ a, map (f a) []) l = [].
Proof. by induction l. Qed.

(** X5.  With an empty list of better trials, or an empty list of worse
    trials, [report_preference] returns and leaves the store as it was. *)
Theorem report_preference_nothing self better worse st si :
  studies st !! _study_id (_study self) = Some si →
  PreferentialStudy.as_list better = [] ∨ PreferentialStudy.as_list worse = [] →
  PreferentialStudy.report_preference self better worse st = (st, Return tt).
Proof.
  intros Hsi Hempty. unfold PreferentialStudy.report_preference.
  assert (Hpairs :
    flat_map (λ b, map (λ w, (number b, number w)) (PreferentialStudy.as_list worse))
             (PreferentialStudy.as_list better) = []).
  { destruct Hempty as [->| ->]; [done|apply flat_map_nil_inner]. }
  rewrite Hpairs, (report_preferences_eq _ _ _ _ Hsi).
  by rewrite (report_nothing _ _ _ Hsi).
Qed.

Lemma report_preference_nothing_witness :
  PreferentialStudy.report_preference example_self
    (OneTrial (example_trial 0 COMPLETE ∅)) (TrialList []) example_store
  = (example_store, Return tt).
Proof.
  apply (report_preference_nothing example_self _ _ example_store example_study).
  - vm_compute. reflexivity.
  - right. reflexivity.
Defined.

(** X6.  Reporting a list of better trials in one call, or its first part
    and then the rest in two calls against the same worse trials, gives
    the same store and the same outcome. *)
Theorem report_preference_split_better self better1 better2 worse st :
  PreferentialStudy.report_preference self (TrialList (better1 ++ better2)) worse st
  = (let! _ := PreferentialStudy.report_preference self (TrialList better1) worse in
     PreferentialStudy.report_preference self (TrialList better2) worse) st.
Proof.
  unfold PreferentialStudy.report_preference, bind. simpl.
  rewrite flat_map_app.
  destruct (studies st !! _study_id (_study self)) as [si|] eqn:Hsi.
  - rewrite !(report_preferences_eq _ _ _ _ Hsi).
    rewrite (report_preferences_eq _ _ _ _ (lookup_with_studies_insert _ _ _)).
    f_equal. unfold with_studies, with_preferences. simpl.
    rewrite insert_insert_eq. by rewrite app_assoc.
  - unfold _system_attrs.report_preferences. by rewrite Hsi.
Qed.

Lemma lost_cross (better worse : list FrozenTrial) n :
  lost (flat_map (λ b, map (λ w, (number b, number w)) worse) better) n
  ↔ better ≠ [] ∧ n ∈ number <$> worse.
Proof.
  unfold lost. split.
  - intros [c Hc]. apply list_elem_of_In, in_flat_map in Hc as (b & Hb & Hw).
    apply in_map_iff in Hw as (w & [= _ <-] & Hw).
    split; [by destruct better|].
    apply list_elem_of_fmap. exists w. by rewrite list_elem_of_In.
  - intros [Hne (w & -> & Hw)%list_elem_of_fmap].
    destruct better as [|b better]; [done|].
    exists (number b). apply list_elem_of_In, in_flat_map.
    exists b. split; [by left|]. apply in_map_iff. exists w.
    by rewrite <- list_elem_of_In.
Qed.

(** X7.  Reporting can only shrink the frontier: after [report_preference]
    the frontier is the one before without the trials numbered like a
    worse trial of the call (and unchanged if the call names no better
    trial). *)
Theorem report_preference_shrinks_frontier self better worse st si :
  studies st !! _study_id (_study self) = Some si →
  ∃ st' before after,
    PreferentialStudy.report_preference self better worse st = (st', Return tt) ∧
    get_best_trials (_study_id (_study self)) st = Return before ∧
    get_best_trials (_study_id (_study self)) st' = Return after ∧
    after = filter (λ t, PreferentialStudy.as_list better = [] ∨
                         number t ∉ number <$> PreferentialStudy.as_list worse)
                   before ∧
    sublist after before.
Proof.
  intros Hsi. unfold PreferentialStudy.report_preference.
  rewrite (report_preferences_eq _ _ _ _ Hsi).
  do 3 eexists. split; [reflexivity|].
  split; [by apply get_best_trials_eq|].
  split; [apply get_best_trials_eq, lookup_with_studies_insert|].
  simpl.
  assert (Heq : filter
    (frontier_member
       (with_preferences
          (λ l, l ++ flat_map (λ b, map (λ w, (number b, number w))
                                     (PreferentialStudy.as_list worse))
                             (PreferentialStudy.as_list better)) si)) (trials si)
    = filter (λ t, PreferentialStudy.as_list better = [] ∨
                   number t ∉ number <$> PreferentialStudy.as_list worse)
             (filter (frontier_member si) (trials si))).
  { rewrite list_filter_filter. apply list_filter_iff. intros t.
    unfold frontier_member. simpl. rewrite lost_app, lost_cross.
    destruct (decide (PreferentialStudy.as_list better = [])); tauto. }
  split; [exact Heq|]. rewrite Heq. apply sublist_filter.
Qed.

Lemma report_preference_shrinks_frontier_witness :
  ∃ st',
    PreferentialStudy.report_preference example_self
      (OneTrial (example_trial 1 RUNNING ∅)) (OneTrial (example_trial 0 COMPLETE ∅))
      example_store = (st', Return tt) ∧
    get_best_trials 0 st' = Return [].
Proof.
  destruct (report_preference_shrinks_frontier example_self
              (OneTrial (example_trial 1 RUNNING ∅))
              (OneTrial (example_trial 0 COMPLETE ∅)) example_store example_study)
    as (st' & before & after & Hrun & Hbefore & Hafter & Hfilter & _).
  { vm_compute. reflexivity. }
  exists st'. split; [exact Hrun|].
  simpl in Hafter. rewrite Hafter, Hfilter.
  vm_compute in Hbefore. injection Hbefore as <-. vm_compute. reflexivity.
Defined.

(** X8.  The frontier depends on the Ledger only through the set of
    numbers that appear as worse: two studies with the same trials whose
    Ledgers have the same worse numbers have the same frontier, whatever
    the order, the repetitions and the better sides of their statements. *)
Theorem frontier_depends_on_worse_numbers sid1 st1 si1 sid2 st2 si2 :
  studies st1 !! sid1 = Some si1 →
  studies st2 !! sid2 = Some si2 →
  trials si1 = trials si2 →
  (∀ n, lost (preferences si1) n ↔ lost (preferences si2) n) →
  get_best_trials sid1 st1 = get_best_trials sid2 st2.
Proof.
  intros H1 H2 Htr Hlost.
  rewrite (get_best_trials_eq _ _ _ H1), (get_best_trials_eq _ _ _ H2), Htr.
  f_equal. apply list_filter_iff. intros t. unfold frontier_member.
  by rewrite Hlost.
Qed.

(** ** Marking and the frontier *)

Lemma frontier_member_mark tid si t :
  frontier_member (with_trials (fmap (mark tid)) si) (mark tid t)
  ↔ (state t = COMPLETE ∨ state t = RUNNING) ∧ (ready t ∨ trial_id t = tid) ∧
    ¬ lost (preferences si) (number t).
Proof.
  unfold frontier_member. simpl. rewrite mark_state, mark_number.
  assert (Hr : ready (mark tid t) ↔ ready t ∨ trial_id t = tid).
  { split.
    - intros Hr. destruct (decide (trial_id t = tid)) as [|Hne]; [auto|].
      left. by rewrite (mark_already tid t) in Hr.
    - intros [Hr|Hid]; [by apply mark_ready_mono|by apply mark_ready_same]. }
  by rewrite Hr.
Qed.

(** X9.  After [mark_comparison_ready] on a trial with id [tid] that has
    not finished, every trial of the frontier is still in it, every trial
    that joined has id [tid], and the marked trial is in it as soon as it
    is running and has lost no comparison.  On a trial that has finished
    the call raises and the frontier is as it was. *)
Theorem mark_comparison_ready_joins_frontier self x tid st sid si :
  designates self x tid st →
  studies st !! sid = Some si →
  (¬ finished st tid →
   ∃ st' before after,
     PreferentialStudy.mark_comparison_ready self x st = (st', Return tt) ∧
     get_best_trials sid st = Return before ∧
     get_best_trials sid st' = Return after ∧
     (∀ t, t ∈ before → t ∈ after) ∧
     (∀ t, t ∈ after → t ∈ before ∨ trial_id t = tid) ∧
     (∀ t, t ∈ trials si → trial_id t = tid → state t = RUNNING →
           ¬ lost (preferences si) (number t) →
           ∃ t', t' ∈ after ∧ number t' = number t ∧ trial_id t' = tid ∧ ready t')) ∧
  (finished st tid →
   get_best_trials sid (PreferentialStudy.mark_comparison_ready self x st).1
     = get_best_trials sid st ∧
   ∃ msg, (PreferentialStudy.mark_comparison_ready self x st).2
          = Raise (RuntimeError msg)).
Proof.
  intros Hx Hsi. split.
  - intros Hnot. exists (mark_all tid st). do 2 eexists.
    split; [by apply mark_comparison_ready_designated|].
    split; [by apply get_best_trials_eq|].
    split.
    { apply get_best_trials_eq. by rewrite lookup_mark_all, Hsi. }
    simpl. repeat split.
    + intros t [Hfm Hin]%list_elem_of_filter.
      assert (Hsame : mark tid t = t) by (apply mark_already; intros _; apply Hfm).
      apply list_elem_of_filter. split.
      * rewrite <- Hsame. apply frontier_member_mark.
        destruct Hfm as (Hs & Hr & Hl). auto.
      * apply list_elem_of_fmap. exists t. by rewrite Hsame.
    + intros t' [Hfm (t & -> & Hin)%list_elem_of_fmap]%list_elem_of_filter.
      rewrite mark_trial_id.
      destruct (decide (trial_id t = tid)) as [|Hne]; [auto|]. left.
      apply frontier_member_mark in Hfm as (Hs & [Hr|Hid] & Hl); [|done].
      rewrite (mark_already tid t) by done.
      apply list_elem_of_filter. by repeat split.
    + intros t Hin Hid Hs Hl. exists (mark tid t).
      rewrite mark_number, mark_trial_id.
      split; [|split; [done|split; [done|by apply mark_ready_same]]].
      apply list_elem_of_filter. split.
      * apply frontier_member_mark. auto.
      * apply list_elem_of_fmap. by exists t.
  - intros Hfin. rewrite (mark_comparison_ready_finished _ _ _ _ Hx Hfin).
    simpl. split; [done|]. eauto.
Qed.

Lemma mark_comparison_ready_joins_frontier_witness :
  (∃ st',
     PreferentialStudy.mark_comparison_ready example_self (ObjValue (PyInt 5)) example_store
       = (st', Return tt) ∧
     get_best_trials 0 st'
       = Return [example_trial 0 COMPLETE (flag (PyBool true));
                 example_trial 5 RUNNING (flag (PyBool true))]) ∧
  get_best_trials 0
    (PreferentialStudy.mark_comparison_ready example_self (ObjValue (PyInt 2))
       example_store).1
  = Return [example_trial 0 COMPLETE (flag (PyBool true))].
Proof.
  split.
  - destruct (mark_comparison_ready_joins_frontier example_self (ObjValue (PyInt 5)) 15
                example_store 0 example_study) as [Hok _].
    { exists 5. split; [reflexivity|]. vm_compute. reflexivity. }
    { vm_compute. reflexivity. }
    destruct Hok as (st' & before & after & Hrun & _).
    { apply not_finished. apply (bool_decide_unpack _). vm_compute. exact I. }
    exists st'. split; [exact Hrun|].
    vm_compute in Hrun. injection Hrun as <-. vm_compute. reflexivity.
  - destruct (mark_comparison_ready_joins_frontier example_self (ObjValue (PyInt 2)) 12
                example_store 0 example_study) as [_ Hfin].
    { exists 2. split; [reflexivity|]. vm_compute. reflexivity. }
    { vm_compute. reflexivity. }
    destruct Hfin as [-> _].
    { apply (bool_decide_unpack _). vm_compute. exact I. }
    vm_compute. reflexivity.
Defined.

Lemma mark_comparison_ready_store self x st :
  (PreferentialStudy.mark_comparison_ready self x st).1 = st ∨
  ∃ tid, (PreferentialStudy.mark_comparison_ready self x st).1 = mark_all tid st.
Proof.
  unfold PreferentialStudy.mark_comparison_ready, bind.
  destruct x as [t|v].
  - unfold ret. destruct (set_ready_store (_trial_id t) st); eauto.
  - destruct (isinstance_int v) as [n|]; [|by left].
    unfold query.
    destruct (BaseStorage.get_trial_id_from_study_id_trial_number _ n st)
      as [tid|e]; [|by left].
    destruct (set_ready_store tid st); eauto.
Qed.

Lemma mark_other_keys tid t k :
  k ≠ _SYSTEM_ATTR_COMPARISON_READY →
  system_attrs (mark tid t) !! k = system_attrs t !! k.
Proof.
  intros Hk. unfold mark, BaseStorage.set_attr_of. case_decide; [|done].
  simpl. by rewrite lookup_insert_ne.
Qed.

Lemma mark_user_attrs tid t : user_attrs (mark tid t) = user_attrs t.
Proof. unfold mark, BaseStorage.set_attr_of. by case_decide. Qed.

(** X10.  Whatever it is handed and however it ends,
    [mark_comparison_ready] adds and removes no study and no trial, keeps
    every study's name, attributes and Ledger, and keeps every trial's
    number, state, id, user attributes and every system attribute other
    than the comparison-ready flag. *)
Theorem mark_comparison_ready_touches_only_the_flag self x st sid :
  study_name_to_id (PreferentialStudy.mark_comparison_ready self x st).1
    = study_name_to_id st ∧
  option_Forall2
    (λ si si',
       study_name si' = study_name si ∧
       study_system_attrs si' = study_system_attrs si ∧
       study_user_attrs si' = study_user_attrs si ∧
       preferences si' = preferences si ∧
       Forall2 (λ t t',
                  number t' = number t ∧ state t' = state t ∧
                  trial_id t' = trial_id t ∧ user_attrs t' = user_attrs t ∧
                  ∀ k, k ≠ _SYSTEM_ATTR_COMPARISON_READY →
                       system_attrs t' !! k = system_attrs t !! k)
               (trials si) (trials si'))
    (studies st !! sid)
    (studies (PreferentialStudy.mark_comparison_ready self x st).1 !! sid).
Proof.
  destruct (mark_comparison_ready_store self x st) as [->|[tid ->]].
  - split; [done|]. destruct (studies st !! sid) as [si|]; constructor.
    repeat split. apply Forall2_same_length_lookup_2; [done|].
    intros i t t' Ht Ht'. assert (t' = t) as -> by congruence. done.
  - split; [done|]. rewrite lookup_mark_all.
    destruct (studies st !! sid) as [si|]; constructor. simpl.
    repeat split. apply Forall2_fmap_r, Forall_Forall2_diag, Forall_forall.
    intros t _.
    split; [apply mark_number|]. split; [apply mark_state|].
    split; [apply mark_trial_id|]. split; [apply mark_user_attrs|].
    intros k Hk. by apply mark_other_keys.
Qed.

(** ** What no call undoes *)

(** X11.  Along every sequence of calls of the package a study stays in
    the store under its id and name, its Ledger is only appended to, and
    each of its trials stays at its position with its number and id. *)
Theorem package_calls_only_add st st' sid si :
  rtc core_step st st' →
  studies st !! sid = Some si →
  ∃ si',
    studies st' !! sid = Some si' ∧
    study_name si' = study_name si ∧
    preferences si `prefix_of` preferences si' ∧
    ∀ (i : nat) t, trials si !! i = Some t →
      ∃ t', trials si' !! i = Some t' ∧ number t' = number t ∧
            trial_id t' = trial_id t.
Proof.
  intros Hsteps%steps_store_le Hsi.
  destruct (Hsteps _ _ Hsi) as (si' & Hsi' & Hname & _ & Htr & Hpre).
  exists si'. repeat split; try done.
  intros i t Ht. destruct (Htr _ _ Ht) as (t' & Ht' & Hn & Hid & _).
  by exists t'.
Qed.

Lemma package_calls_only_add_witness :
  ∃ si',
    studies (run_op (ReportPreference example_self
                       (OneTrial (example_trial 3 COMPLETE ∅))
                       (OneTrial (example_trial 0 COMPLETE ∅)))
               (run_op (MarkComparisonReady example_self (ObjValue (PyInt 3)))
                  example_store)) !! 0 = Some si' ∧
    [(0, 1); (1, 3); (0, 1)] `prefix_of` preferences si'.
Proof.
  destruct (package_calls_only_add example_store
              (run_op (ReportPreference example_self
                         (OneTrial (example_trial 3 COMPLETE ∅))
                         (OneTrial (example_trial 0 COMPLETE ∅)))
                 (run_op (MarkComparisonReady example_self (ObjValue (PyInt 3)))
                    example_store)) 0 example_study)
    as (si' & Hsi' & _ & Hpre & _).
  - eapply rtc_l; [by eexists (MarkComparisonReady _ _)|].
    apply rtc_once. by eexists (ReportPreference _ _ _).
  - vm_compute. reflexivity.
  - exists si'. split; [exact Hsi'|exact Hpre].
Defined.

(** X12.  In every store built from an empty one by calls of the package
    the trials of each study are numbered by position, so that
    [get_preferences] resolves every statement that references trials of
    the study to the snapshots with these numbers. *)
Theorem reachable_preferences_resolve st self deepcopy_flag si :
  rtc core_step empty_storage st →
  studies st !! _study_id (_study self) = Some si →
  dense si ∧
  ((∀ b w, (b, w) ∈ preferences si → has_number si b ∧ has_number si w) →
   ∃ resolved,
     PreferentialStudy.get_preferences self deepcopy_flag st = (st, Return resolved) ∧
     Forall2 (resolves si) (preferences si) resolved).
Proof.
  intros Hsteps Hsi.
  assert (Hdense : dense si) by (by apply (reachable_dense st Hsteps _ _ Hsi)).
  split; [done|]. intros Hvalid.
  destruct (get_preferences_positional self deepcopy_flag st si Hsi)
    as (resolved & Heq & HF).
  { intros [b w] [Hb Hw]%Hvalid.
    destruct (dense_position _ _ Hdense Hb) as (i & tb & -> & Hi).
    destruct (dense_position _ _ Hdense Hw) as (j & tw & -> & Hj).
    by exists i, j, tb, tw. }
  exists resolved. split; [done|].
  eapply Forall2_impl; [exact HF|]. intros p q. by apply dense_resolves.
Qed.

Lemma reachable_preferences_resolve_witness :
  studies reached_store !! 0 = Some reached_study ∧
  dense reached_study ∧
  ∃ resolved,
    PreferentialStudy.get_preferences example_self true reached_store
      = (reached_store, Return resolved) ∧
    Forall2 (resolves reached_study) [(0, 1)] resolved.
Proof.
  assert (Hsi : studies reached_store !! _study_id (_study example_self)
                = Some reached_study) by (vm_compute; reflexivity).
  assert (Hsteps : rtc core_step empty_storage reached_store).
  { eapply rtc_l; [by eexists (CreateStudy _ _ _)|].
    eapply rtc_l; [by eexists (Ask _)|].
    eapply rtc_l; [by eexists (Ask _)|].
    apply rtc_once. by eexists (ReportPreference _ _ _). }
  destruct (reachable_preferences_resolve reached_store example_self true
              reached_study Hsteps Hsi) as [Hdense Hres].
  split; [exact Hsi|]. split; [exact Hdense|].
  apply Hres. apply ledger_references. apply (bool_decide_unpack _).
  vm_compute. exact I.
Defined.

Lemma get_preferences_index_semantics_witness :
  PreferentialStudy.get_preferences (mkPreferentialStudy (mkStudy 1)) true edge_store
    = (edge_store, Raise IndexError) ∧
  ∃ resolved,
    PreferentialStudy.get_preferences example_self true edge_store
      = (edge_store, Return resolved) ∧
    Forall2 (λ p q, trials wrapping_study !! wrapped 3 p.1 = Some q.1 ∧
                    trials wrapping_study !! wrapped 3 p.2 = Some q.2)
            [(-1, 0)] resolved ∧
    wrapped 3 (-1) = 2%nat.
Proof.
  split.
  - apply (get_preferences_index_semantics (mkPreferentialStudy (mkStudy 1)) true
             edge_store dangling_study); [vm_compute; reflexivity|].
    apply (bool_decide_unpack _). vm_compute. exact I.
  - destruct (get_preferences_index_semantics example_self true edge_store
                wrapping_study) as [Hok _]; [vm_compute; reflexivity|].
    destruct Hok as (resolved & Hrun & HF).
    { apply (bool_decide_unpack _). vm_compute. exact I. }
    exists resolved. split; [exact Hrun|]. split; [exact HF|reflexivity].
Defined.

Lemma frontier_depends_on_worse_numbers_witness :
  get_best_trials 0 example_store = get_best_trials 7 retold_store.
Proof.
  apply (frontier_depends_on_worse_numbers 0 example_store example_study
           7 retold_store retold_study).
  - vm_compute. reflexivity.
  - vm_compute. reflexivity.
  - reflexivity.
  - intros n. rewrite <- !elem_of_worse_numbers.
    replace (list_to_set (preferences retold_study).*2 : gset Z)
      with (list_to_set (preferences example_study).*2 : gset Z)
      by (vm_compute; reflexivity).
    reflexivity.
Defined.

(** ** Calls that are beside the point *)

(** X13.  [set_user_attr] changes neither the frontier, nor the Ledger,
    nor the system attributes of any study, whatever the key: a user
    attribute named like a reserved key does not unmark a study. *)
Theorem set_user_attr_is_unrelated self key value st sid :
  get_best_trials sid (PreferentialStudy.set_user_attr self key value st).1
    = get_best_trials sid st ∧
  _system_attrs.get_preferences sid (PreferentialStudy.set_user_attr self key value st).1
    = _system_attrs.get_preferences sid st ∧
  BaseStorage.get_study_system_attrs sid
    (PreferentialStudy.set_user_attr self key value st).1
    = BaseStorage.get_study_system_attrs sid st ∧
  study_name_to_id (PreferentialStudy.set_user_attr self key value st).1
    = study_name_to_id st.
Proof.
  unfold PreferentialStudy.set_user_attr, optuna.set_user_attr,
    BaseStorage.set_study_user_attr.
  destruct (studies st !! _study_id (_study self)) as [si|] eqn:Hsi; [|done].
  unfold get_best_trials, BaseStorage.get_all_trials, _system_attrs.get_preferences,
    BaseStorage.get_study_system_attrs. simpl.
  destruct (decide (sid = _study_id (_study self))) as [->|Hne].
  - by rewrite lookup_insert_eq, Hsi.
  - by rewrite lookup_insert_ne.
Qed.

(** X14.  [report_preference] on one study changes neither the Ledger, nor
    the trials, nor the frontier of another. *)
Theorem report_preference_stays_in_its_study self better worse st sid :
  sid ≠ _study_id (_study self) →
  studies (PreferentialStudy.report_preference self better worse st).1 !! sid
    = studies st !! sid ∧
  _system_attrs.get_preferences sid
    (PreferentialStudy.report_preference self better worse st).1
    = _system_attrs.get_preferences sid st ∧
  get_best_trials sid (PreferentialStudy.report_preference self better worse st).1
    = get_best_trials sid st.
Proof.
  intros Hne.
  assert (Hlookup :
    studies (PreferentialStudy.report_preference self better worse st).1 !! sid
    = studies st !! sid).
  { unfold PreferentialStudy.report_preference, _system_attrs.report_preferences.
    destruct (studies st !! _study_id (_study self)); [|done].
    simpl. by rewrite lookup_insert_ne. }
  split; [done|].
  unfold get_best_trials, BaseStorage.get_all_trials, _system_attrs.get_preferences.
  by rewrite Hlookup.
Qed.

Lemma report_preference_stays_in_its_study_witness :
  get_best_trials 0
    (PreferentialStudy.report_preference (mkPreferentialStudy (mkStudy 1))
       (OneTrial (example_trial 1 RUNNING ∅)) (OneTrial (example_trial 0 COMPLETE ∅))
       example_store).1
  = Return [example_trial 0 COMPLETE (flag (PyBool true))].
Proof.
  destruct (report_preference_stays_in_its_study (mkPreferentialStudy (mkStudy 1))
              (OneTrial (example_trial 1 RUNNING ∅))
              (OneTrial (example_trial 0 COMPLETE ∅)) example_store 0)
    as (_ & _ & ->); [discriminate|].
  vm_compute. reflexivity.
Defined.

(** ** When marking fails, and creating twice *)

Lemma get_trial_id_raises sid n st e :
  BaseStorage.get_trial_id_from_study_id_trial_number sid n st = Raise e →
  e = KeyError ∨ e = IndexError ∨ e = AssertionError.
Proof.
  unfold BaseStorage.get_trial_id_from_study_id_trial_number.
  destruct (studies st !! sid) as [si|]; [|intros [= <-]; auto].
  case_decide; [intros [= <-]; auto|].
  unfold py_index. cbv zeta. case_decide; [|intros [= <-]; auto].
  destruct (trials si !! _) as [t|]; simpl; [|intros [= <-]; auto].
  destruct (decide (number t = n)); [by intros [=]|intros [= <-]; auto].
Qed.

(** X17.  [mark_comparison_ready] returns exactly when its argument
    designates a trial (a handle whose trial the store holds, or an
    integer the store resolves) that has not finished.  Otherwise the
    store is left as it was and an exception is raised: [RuntimeError]
    for an argument of the wrong type or a finished trial, and for a
    trial the store does not find [KeyError], or [IndexError] or
    [AssertionError] where the lookup by position says so. *)
Theorem mark_comparison_ready_outcomes self x st :
  ((∃ tid, designates self x tid st ∧ ¬ finished st tid) →
   (PreferentialStudy.mark_comparison_ready self x st).2 = Return tt) ∧
  (¬ (∃ tid, designates self x tid st ∧ ¬ finished st tid) →
   (PreferentialStudy.mark_comparison_ready self x st).1 = st ∧
   ((∃ msg, (PreferentialStudy.mark_comparison_ready self x st).2
            = Raise (RuntimeError msg)) ∨
    (PreferentialStudy.mark_comparison_ready self x st).2 = Raise KeyError ∨
    (PreferentialStudy.mark_comparison_ready self x st).2 = Raise IndexError ∨
    (PreferentialStudy.mark_comparison_ready self x st).2 = Raise AssertionError)).
Proof.
  split.
  - intros (tid & Hx & Hnot).
    by rewrite (mark_comparison_ready_designated _ _ _ _ Hx Hnot).
  - intros Hno.
    assert (Hset : ∀ tid, designates self x tid st →
      (PreferentialStudy.mark_comparison_ready self x st).1 = st ∧
      ∃ msg, (PreferentialStudy.mark_comparison_ready self x st).2
             = Raise (RuntimeError msg)).
    { intros tid Hx.
      destruct (decide (BaseStorage.has_finished_trial tid st)) as [Hfin|Hnot].
      - rewrite (mark_comparison_ready_finished _ _ _ _ Hx Hfin). simpl. eauto.
      - destruct Hno. by exists tid. }
    destruct x as [t|v].
    + destruct (decide (BaseStorage.has_trial (_trial_id t) st)) as [Hhas|Hmiss].
      * destruct (Hset (_trial_id t)) as [Hst Hmsg]; [done|]. auto.
      * unfold PreferentialStudy.mark_comparison_ready, bind, ret.
        rewrite set_trial_system_attr_ready, decide_False by done. simpl. auto.
    + destruct (isinstance_int v) as [n|] eqn:Hv.
      * destruct (BaseStorage.get_trial_id_from_study_id_trial_number
                    (_study_id (_study self)) n st) as [tid|e] eqn:Hres.
        -- destruct (Hset tid) as [Hst Hmsg]; [simpl; eauto|]. auto.
        -- unfold PreferentialStudy.mark_comparison_ready, bind, query.
           rewrite Hv, Hres. simpl. split; [done|].
           destruct (get_trial_id_raises _ _ _ _ Hres) as [->|[->| ->]]; auto.
      * unfold PreferentialStudy.mark_comparison_ready, bind.
        rewrite Hv. simpl. eauto.
Qed.

Lemma mark_comparison_ready_outcomes_witness :
  PreferentialStudy.mark_comparison_ready example_self (ObjTrial (mkTrial 99)) example_store
    = (example_store, Raise KeyError) ∧
  (PreferentialStudy.mark_comparison_ready example_self (ObjTrial (mkTrial 15))
     example_store).2 = Return tt ∧
  (PreferentialStudy.mark_comparison_ready example_self (ObjValue (PyInt (-1)))
     example_store).2 = Raise AssertionError ∧
  (PreferentialStudy.mark_comparison_ready example_self (ObjValue (PyInt (-7)))
     example_store).2 = Raise IndexError.
Proof.
  destruct (mark_comparison_ready_outcomes example_self (ObjTrial (mkTrial 99))
              example_store) as [_ Hfail].
  destruct (mark_comparison_ready_outcomes example_self (ObjTrial (mkTrial 15))
              example_store) as [Hok _].
  assert (Hno : ¬ (∃ tid, designates example_self (ObjTrial (mkTrial 99)) tid
                            example_store ∧ ¬ finished example_store tid)).
  { intros (tid & [Hid Hhas] & _). simpl in Hid. subst tid. revert Hhas.
    apply (bool_decide_unpack _). vm_compute. exact I. }
  split; [|split; [|split]].
  - destruct (Hfail Hno) as [Hst _]. vm_compute. reflexivity.
  - apply Hok. exists 15. split.
    + split; [reflexivity|]. apply (bool_decide_unpack _). vm_compute. exact I.
    + apply not_finished. apply (bool_decide_unpack _). vm_compute. exact I.
  - vm_compute. reflexivity.
  - vm_compute. reflexivity.
Defined.

Lemma load_study_named_index n st st' ps :
  load_study (Some n) st = (st', Return ps) →
  study_name_to_id st !! n = Some (_study_id (_study ps)).
Proof.
  unfold load_study, optuna.load_study, bind, ret, raise, query,
    BaseStorage.get_study_id_from_name, BaseStorage.get_study_system_attrs.
  destruct (study_name_to_id st !! n) as [sid|]; [|done]. simpl.
  destruct (studies st !! sid); [|done].
  destruct (truthy _); simpl; [|done]. by intros [= _ <-].
Qed.

(** X18.  Once [create_study] has returned a study, asking again for a
    study of that name in the resulting store gives the same study and
    leaves the store as it is when [load_if_exists] is set, and raises
    [DuplicatedStudyError] when it is not. *)
Theorem create_study_again storage name lie generated st' ps :
  create_study storage name lie generated = (st', Return ps) →
  ∀ generated',
    create_study (Some st') (Some (default generated name)) true generated'
      = (st', Return ps) ∧
    create_study (Some st') (Some (default generated name)) false generated'
      = (st', Raise DuplicatedStudyError).
Proof.
  intros Hcreate generated'.
  destruct (create_study_returns _ _ _ _ _ _ Hcreate) as [_ Hload].
  pose proof (load_study_named_index _ _ _ _ Hload) as Hn.
  split.
  - by rewrite (create_study_loads_existing _ _ _ _ Hn).
  - exact (create_study_duplicated (Some st') _ false generated' _ Hn).
Qed.

Lemma create_study_again_witness :
  ∃ st' ps,
    create_study None None false "generated" = (st', Return ps) ∧
    create_study (Some st') (Some "generated"%string) true "other" = (st', Return ps).
Proof.
  destruct (create_study None None false "generated") as [st' [ps|e]] eqn:Hcreate;
    [|vm_compute in Hcreate; discriminate].
  exists st', ps. split; [reflexivity|].
  apply (create_study_again None None false "generated"%string st' ps Hcreate).
Defined.
